(** * Pointer events of the grid: a shallow embedding of
    [src/core/gridGL/interaction/usePointerEvents.ts]

    The hook [usePointerEvents] keeps five pieces of React state and returns
    four handlers.  Here the state is an explicit record, the setters are the
    operations of a small state-and-log monad, and each handler is a function
    of the render snapshot it closes over.

    Numbers.  A JavaScript [number] that holds a position or a zoom scale is
    an IEEE 754 binary64 value, here a primitive [float], with the rounding
    of the source's [-], [+], [*] and [/] and with its [<] and [>].  The
    result of [Math.floor] is kept as the integer it denotes ([Z]); the floor
    of a quotient that is [NaN] or infinite has no such integer and is
    outside this model.  A timer handle and [event.button] are integers
    ([Z]); host time is counted in milliseconds ([N]). *)

From Stdlib Require Import ZArith Floats List String Bool Lia.
Import ListNotations.

Set Implicit Arguments.

(** ** Data *)

(** [interface MousePosition { x: number; y: number }].  The source uses the
    same shape for raw world positions (doubles) and for cells (integers). *)
Record MousePosition (num : Type) : Type := mkPosition { x : num; y : num }.

(** [PIXI.Point], of which the handlers read [x] and [y] only. *)
Definition Point : Type := MousePosition float.

(** [{ originPosition: MousePosition; terminalPosition: MousePosition }], the
    type of [previousPosition] and of [multiCursorPosition]. *)
Record MultiCursorPosition : Type := mkMultiCursor {
  originPosition : MousePosition Z;
  terminalPosition : MousePosition Z
}.

(** Modelled from the spec: [GridInteractionState] is declared in
    [atoms/gridInteractionStateAtom], which is not part of the sources at
    hand; its fields are those of the data model's InteractionState, which are
    also exactly the fields the handlers write. *)
Record GridInteractionState : Type := mkInteraction {
  keyboardMovePosition : MousePosition Z;
  cursorPosition : MousePosition Z;
  multiCursorPosition : MultiCursorPosition;
  showMultiCursor : bool;
  showInput : bool;
  inputInitialValue : string
}.

(** The two fields of a DOM [PointerEvent] that the handlers read. *)
Record PointerEvent : Type := mkEvent { button : Z; ctrlKey : bool }.

(** The two fields of the pixi [Viewport] that the handlers touch:
    [scale.x] (read) and [dirty] (written). *)
Record Viewport : Type := mkViewport { scale_x : float; dirty : bool }.

(** The five [useState] cells of the hook. *)
Record HookState : Type := mkHook {
  downPosition : option (MousePosition Z);
  downPositionRaw : option (MousePosition float);
  previousPosition : option MultiCursorPosition;
  pointerMoved : bool;
  doubleClickTimeout : option Z
}.

(** A timer of the host event loop.  The only callback the hook ever
    registers is [() => setDoubleClickTimeout(undefined)], so a timer is its
    handle and the time at which it is due. *)
Record Timer : Type := mkTimer { handle : Z; due : N }.

(** Everything the handlers read or write: the hook's own state, the
    externally owned interaction state, [viewportRef.current], and the host's
    timers and clock. *)
Record World : Type := mkWorld {
  hook : HookState;
  interactionState : GridInteractionState;
  viewportRef : option Viewport;
  timers : list Timer;
  now : N;
  nextHandle : Z
}.

(** What a handler does that an observer outside the hook can see. *)
Inductive Effect : Type :=
| SetInteractionState (s : GridInteractionState)
| DoubleClickCanvas (event : PointerEvent) (s : GridInteractionState)
| MarkDirty
| SetTimeout (h : Z) (delay : N).

Definition MINIMUM_MOVE_POSITION : float := 5.
Definition DOUBLE_CLICK_TIME : N := 500.

(** ** The monad of a handler body: state passing with a log of effects *)

Definition M (A : Type) : Type := World -> A * World * list Effect.

Definition ret {A : Type} (a : A) : M A := fun w => (a, w, []).

Definition bind {A B : Type} (m : M A) (k : A -> M B) : M B :=
  fun w =>
    let r1 := m w in
    let r2 := k (fst (fst r1)) (snd (fst r1)) in
    (fst (fst r2), snd (fst r2), snd r1 ++ snd r2).

Notation "v <- m ;; k" := (bind m (fun v => k))
  (at level 61, m at next level, right associativity).
Notation "m ;; k" := (bind m (fun _ => k))
  (at level 61, right associativity).

Definition modify (f : World -> World) : M unit := fun w => (tt, f w, []).
Definition emit (e : Effect) : M unit := fun w => (tt, w, [e]).

(** The final world and the log of a handler run. *)
Definition world_of {A : Type} (r : A * World * list Effect) : World := snd (fst r).
Definition effects_of {A : Type} (r : A * World * list Effect) : list Effect := snd r.
Definition value_of {A : Type} (r : A * World * list Effect) : A := fst (fst r).

(** ** Setters *)

Definition with_hook (f : HookState -> HookState) (w : World) : World :=
  mkWorld (f (hook w)) (interactionState w) (viewportRef w) (timers w) (now w)
          (nextHandle w).

Definition setDownPosition (v : option (MousePosition Z)) : M unit :=
  modify (with_hook (fun h =>
    mkHook v (downPositionRaw h) (previousPosition h) (pointerMoved h)
           (doubleClickTimeout h))).

Definition setDownPositionRaw (v : option (MousePosition float)) : M unit :=
  modify (with_hook (fun h =>
    mkHook (downPosition h) v (previousPosition h) (pointerMoved h)
           (doubleClickTimeout h))).

Definition setPreviousPosition (v : option MultiCursorPosition) : M unit :=
  modify (with_hook (fun h =>
    mkHook (downPosition h) (downPositionRaw h) v (pointerMoved h)
           (doubleClickTimeout h))).

Definition setPointerMoved (v : bool) : M unit :=
  modify (with_hook (fun h =>
    mkHook (downPosition h) (downPositionRaw h) (previousPosition h) v
           (doubleClickTimeout h))).

Definition setDoubleClickTimeout (v : option Z) : M unit :=
  modify (with_hook (fun h =>
    mkHook (downPosition h) (downPositionRaw h) (previousPosition h)
           (pointerMoved h) v)).

(** [setInteractionState(s)]: the container now holds [s], and the write is
    logged. *)
Definition setInteractionState (s : GridInteractionState) : M unit :=
  modify (fun w => mkWorld (hook w) s (viewportRef w) (timers w) (now w)
                           (nextHandle w)) ;;
  emit (SetInteractionState s).

(** [props.viewportRef.current.dirty = true] *)
Definition markDirty : M unit :=
  modify (fun w =>
    mkWorld (hook w) (interactionState w)
            (match viewportRef w with
             | Some v => Some (mkViewport (scale_x v) true)
             | None => None
             end)
            (timers w) (now w) (nextHandle w)) ;;
  emit MarkDirty.

(** [window.setTimeout(callback, delay)]: the host hands out a fresh handle
    and keeps the timer until it is due.  Nothing in the source removes a
    timer before that: [clearTimeout] is never called. *)
Definition setTimeout (delay : N) : M Z :=
  fun w =>
    let h := nextHandle w in
    (h,
     mkWorld (hook w) (interactionState w) (viewportRef w)
             (timers w ++ [mkTimer h (now w + delay)]) (now w) (h + 1)%Z,
     [SetTimeout h delay]).

(** ** JavaScript tests *)

(** [a < b] on numbers is [PrimFloat.ltb a b], and [a > b] is
    [PrimFloat.ltb b a]: both are false when one side is [NaN]. *)

(** [Math.floor(f)], as the integer it denotes.  A finite double is
    [+/- m * 2^e]; the floor of a zero is 0. *)
Definition Math_floor (f : float) : Z :=
  match Prim2SF f with
  | S754_finite s m e =>
      let v := if s then Z.neg m else Z.pos m in
      if (0 <=? e)%Z then (v * 2 ^ e)%Z else (v / 2 ^ (- e))%Z
  | _ => 0%Z
  end.

(** The doubles that are not below zero: the zeros, the positive ones and
    [NaN]; and the doubles that are not above zero. *)
Definition not_negative (f : spec_float) : Prop :=
  match f with
  | S754_infinity true | S754_finite true _ _ => False
  | _ => True
  end.

Definition not_positive (f : spec_float) : Prop :=
  match f with
  | S754_infinity false | S754_finite false _ _ => False
  | _ => True
  end.

(** Truthiness of a [number | undefined]: [undefined] and [0] are falsy. *)
Definition truthy (v : option Z) : bool :=
  match v with
  | Some n => negb (n =? 0)%Z
  | None => false
  end.

(** [Math.abs(a.x - b.x) + Math.abs(a.y - b.y)] *)
Definition manhattan (a b : MousePosition float) : float :=
  (abs (x a - x b) + abs (y a - y b))%float.

(** ** Sample data

    The configuration of the specification's scenarios: cells of 100 by 20,
    a viewport at zoom scale 1, a hook that has just been mounted. *)

Definition cell (cx cy : Z) : MousePosition Z := mkPosition cx cy.

Definition at_world (wx wy : float) : Point := mkPosition wx wy.

Definition resting : GridInteractionState :=
  mkInteraction (cell 0 0) (cell 0 0) (mkMultiCursor (cell 0 0) (cell 0 0))
                false false EmptyString.

(** A selection of the four cells from (0,0) to (1,1) is shown. *)
Definition selecting : GridInteractionState :=
  mkInteraction (cell 1 1) (cell 0 0) (mkMultiCursor (cell 0 0) (cell 1 1))
                true false EmptyString.

Definition unmounted_hook : HookState := mkHook None None None false None.

Definition mounted : World :=
  mkWorld unmounted_hook resting (Some (mkViewport 1 false)) [] 0 1.

Definition mounted_selecting : World :=
  mkWorld unmounted_hook selecting (Some (mkViewport 1 false)) [] 0 1.

(** The hook is mounted, the viewport is not there yet. *)
Definition without_viewport : World :=
  mkWorld unmounted_hook resting None [] 0 1.

Definition primary : PointerEvent := mkEvent 0 false.
Definition secondary : PointerEvent := mkEvent 2 false.

(** A double-click handler that leaves the interaction state as it is. *)
Definition keep (_ : PointerEvent) (s : GridInteractionState)
    : GridInteractionState := s.

Section UsePointerEvents.

(** [CELL_WIDTH] and [CELL_HEIGHT] come from [constants/gridConstants] and
    [onDoubleClickCanvas] from its own module; none of them is part of the
    sources at hand, so they are parameters.  Of [onDoubleClickCanvas] the
    model keeps what it leaves in the interaction state container. *)
Variable CELL_WIDTH CELL_HEIGHT : float.
Variable onDoubleClickCanvas :
  PointerEvent -> GridInteractionState -> GridInteractionState.

(** ** The handlers

    Each handler takes the render snapshot [r] that its closure captured:
    state and props are read from [r], while the setters act on the world
    that is being threaded through. *)

Definition callDoubleClickCanvas (event : PointerEvent)
    (s : GridInteractionState) : M unit :=
  modify (fun w =>
    mkWorld (hook w) (onDoubleClickCanvas event s)
            (viewportRef w) (timers w) (now w) (nextHandle w)) ;;
  emit (DoubleClickCanvas event s).

Definition isDoubleClick (r : World) (world : Point) (event : PointerEvent)
    : M bool :=
  if negb (button event =? 0)%Z then ret false else
  match downPositionRaw (hook r), viewportRef r with
  | Some raw, Some viewport =>
      if truthy (doubleClickTimeout (hook r))
         && negb (pointerMoved (hook r))
         && PrimFloat.ltb (manhattan raw world)
                          (MINIMUM_MOVE_POSITION * scale_x viewport)%float
      then
        setDoubleClickTimeout None ;;
        callDoubleClickCanvas event (interactionState r) ;;
        ret true
      else ret false
  | _, _ => ret false
  end.

Definition onPointerDown (r : World) (world : Point) (event : PointerEvent)
    : M unit :=
  consumed <- isDoubleClick r world event ;;
  if consumed then ret tt else
  match viewportRef r with
  | None => ret tt
  | Some _ =>
      setDownPositionRaw (Some (mkPosition (x world) (y world))) ;;
      let down_cell_x := Math_floor (x world / CELL_WIDTH)%float in
      let down_cell_y := Math_floor (y world / CELL_HEIGHT)%float in
      let rightClick :=
        ((button event =? 2)%Z
         || ((button event =? 0)%Z && ctrlKey event))%bool in
      let select : M unit :=
        setDownPosition (Some (mkPosition down_cell_x down_cell_y)) ;;
        let previousPosition :=
          mkMultiCursor (mkPosition down_cell_x down_cell_y)
                        (mkPosition down_cell_x down_cell_y) in
        setPreviousPosition (Some previousPosition) ;;
        setInteractionState
          (mkInteraction
             (keyboardMovePosition (interactionState r))
             (mkPosition down_cell_x down_cell_y)
             previousPosition
             false
             (showInput (interactionState r))
             (inputInitialValue (interactionState r))) ;;
        setPointerMoved false in
      let selection := multiCursorPosition (interactionState r) in
      if rightClick && showMultiCursor (interactionState r) then
        if ((down_cell_x >=? x (originPosition selection))
            && (down_cell_x <=? x (terminalPosition selection))
            && (down_cell_y >=? y (originPosition selection))
            && (down_cell_y <=? y (terminalPosition selection)))%Z
        then ret tt
        else select
      else if rightClick then ret tt
      else select
  end.

Definition onPointerMove (r : World) (world : Point) (_ : PointerEvent)
    : M unit :=
  match viewportRef r with
  | None => ret tt
  | Some viewport =>
      match downPosition (hook r), previousPosition (hook r),
            downPositionRaw (hook r) with
      | Some down, Some previous, Some raw =>
          (if negb (pointerMoved (hook r))
              && PrimFloat.ltb
                   (MINIMUM_MOVE_POSITION * scale_x viewport)%float
                   (manhattan raw world)
           then setPointerMoved true
           else ret tt) ;;
          let move_cell_x := Math_floor (x world / CELL_WIDTH)%float in
          let move_cell_y := Math_floor (y world / CELL_HEIGHT)%float in
          if ((move_cell_x =? x down) && (move_cell_y =? y down))%Z then
            setInteractionState
              (mkInteraction
                 (mkPosition (x down) (y down))
                 (mkPosition (x down) (y down))
                 (mkMultiCursor (mkPosition (x down) (y down))
                                (mkPosition (x down) (y down)))
                 false
                 false
                 EmptyString)
          else
            let originX := if (x down <? move_cell_x)%Z then x down else move_cell_x in
            let originY := if (y down <? move_cell_y)%Z then y down else move_cell_y in
            let termX := if (x down >? move_cell_x)%Z then x down else move_cell_x in
            let termY := if (y down >? move_cell_y)%Z then y down else move_cell_y in
            let hasMoved :=
              negb ((x (originPosition previous) =? originX)
                    && (y (originPosition previous) =? originY)
                    && (x (terminalPosition previous) =? termX)
                    && (y (terminalPosition previous) =? termY))%Z in
            if hasMoved then
              setInteractionState
                (mkInteraction
                   (mkPosition move_cell_x move_cell_y)
                   (mkPosition (x down) (y down))
                   (mkMultiCursor (mkPosition originX originY)
                                  (mkPosition termX termY))
                   true
                   false
                   EmptyString) ;;
              markDirty ;;
              setPreviousPosition
                (Some (mkMultiCursor (mkPosition originX originY)
                                     (mkPosition termX termY)))
            else ret tt
      | _, _, _ => ret tt
      end
  end.

Definition onPointerUp (r : World) : M unit :=
  (match downPosition (hook r) with
   | Some _ =>
       if negb (pointerMoved (hook r)) then
         timeout <- setTimeout DOUBLE_CLICK_TIME ;;
         setDoubleClickTimeout (Some timeout)
       else ret tt
   | None => ret tt
   end) ;;
  setDownPosition None ;;
  setPreviousPosition None.

(** ** The event loop

    Between two events React renders again, so every handler runs with the
    world it starts from as its snapshot.  Besides the three pointer events
    the loop knows the passing of time, at which due timers fire, and the
    writes of the collaborators that own the viewport and the interaction
    state. *)

Inductive Event : Type :=
| PointerDown (world : Point) (event : PointerEvent)
| PointerMove (world : Point) (event : PointerEvent)
| PointerUp
| Elapse (dt : N)
| Outside (viewport : option Viewport) (s : GridInteractionState).

Definition is_due (t : N) (timer : Timer) : bool := (due timer <=? t)%N.

(** The clock advances by [dt]; every timer that is due by then leaves the
    host's list and runs its callback, [setDoubleClickTimeout(undefined)]. *)
Definition elapse (dt : N) (w : World) : World :=
  let t := (now w + dt)%N in
  let fired := filter (is_due t) (timers w) in
  let pending := filter (fun timer => negb (is_due t timer)) (timers w) in
  fold_left (fun w' _ => world_of (setDoubleClickTimeout None w'))
            fired
            (mkWorld (hook w) (interactionState w) (viewportRef w) pending t
                     (nextHandle w)).

Definition outside (viewport : option Viewport) (s : GridInteractionState)
    (w : World) : World :=
  mkWorld (hook w) s viewport (timers w) (now w) (nextHandle w).

Definition dispatch (w : World) (ev : Event) : World * list Effect :=
  match ev with
  | PointerDown world event =>
      let res := onPointerDown w world event w in (world_of res, effects_of res)
  | PointerMove world event =>
      let res := onPointerMove w world event w in (world_of res, effects_of res)
  | PointerUp =>
      let res := onPointerUp w w in (world_of res, effects_of res)
  | Elapse dt => (elapse dt w, [])
  | Outside viewport s => (outside viewport s w, [])
  end.

Fixpoint run (w : World) (evs : list Event) : World * list Effect :=
  match evs with
  | [] => (w, [])
  | ev :: rest =>
      let r1 := dispatch w ev in
      let r2 := run (fst r1) rest in
      (fst r2, snd r1 ++ snd r2)
  end.

(** An event that neither starts nor ends a gesture. *)
Definition quiet (ev : Event) : Prop :=
  match ev with
  | PointerDown _ _ | PointerUp => False
  | _ => True
  end.

(** ** The words of the specification *)

(** CoordinateMapper:
    [toCell(world) = { x: floor(world.x / CELL_WIDTH), y: floor(world.y / CELL_HEIGHT) }]. *)
Definition toCell (world : Point) : MousePosition Z :=
  mkPosition (Math_floor (x world / CELL_WIDTH)%float) (Math_floor (y world / CELL_HEIGHT)%float).

(** SelectionTracker: origin is the per-axis minimum of the down cell and the
    current cell, terminal the per-axis maximum. *)
Definition normalize (down current : MousePosition Z) : MultiCursorPosition :=
  mkMultiCursor (mkPosition (Z.min (x down) (x current)) (Z.min (y down) (y current)))
                (mkPosition (Z.max (x down) (x current)) (Z.max (y down) (y current))).

(** The invariant of a SelectionRectangle. *)
Definition normalized (m : MultiCursorPosition) : Prop :=
  (x (originPosition m) <= x (terminalPosition m))%Z /\
  (y (originPosition m) <= y (terminalPosition m))%Z.

(** The number of interaction-state writes in a log. *)
Fixpoint writes (l : list Effect) : nat :=
  match l with
  | [] => 0
  | SetInteractionState _ :: rest => S (writes rest)
  | _ :: rest => writes rest
  end.

(** ** The outcomes of the handlers, named

    The lemmas below compute each handler once and for all; these are the
    worlds and the tests they mention. *)

(** The hook state once a timer callback has run. *)
Definition expired (h : HookState) : HookState :=
  mkHook (downPosition h) (downPositionRaw h) (previousPosition h)
         (pointerMoved h) None.

(** The world after [isDoubleClick] has answered [true]. *)
Definition consumed_world (r w : World) (event : PointerEvent) : World :=
  mkWorld (expired (hook w))
          (onDoubleClickCanvas event (interactionState r))
          (viewportRef w) (timers w) (now w) (nextHandle w).

(** [event.button === 2 || (event.button === 0 && event.ctrlKey)] *)
Definition rightClick (event : PointerEvent) : bool :=
  (button event =? 2)%Z || ((button event =? 0)%Z && ctrlKey event).

(** The clicked cell lies within the rectangle, bounds included. *)
Definition contains (m : MultiCursorPosition) (cell : MousePosition Z) : bool :=
  ((x cell >=? x (originPosition m)) && (x cell <=? x (terminalPosition m))
   && (y cell >=? y (originPosition m)) && (y cell <=? y (terminalPosition m)))%Z.

(** The pointer-downs that return before anything is selected: a right-click
    with no multi-cell selection shown, or inside the one shown. *)
Definition swallowed (r : World) (world : Point) (event : PointerEvent) : bool :=
  rightClick event
  && (negb (showMultiCursor (interactionState r))
      || contains (multiCursorPosition (interactionState r)) (toCell world)).

(** The state that [onPointerDown] writes when it selects a cell. *)
Definition selected (before : GridInteractionState) (cell : MousePosition Z)
    : GridInteractionState :=
  mkInteraction (keyboardMovePosition before) cell (mkMultiCursor cell cell)
                false (showInput before) (inputInitialValue before).

(** The world after a swallowed pointer-down, and after a selecting one. *)
Definition swallowed_world (w : World) (world : Point) : World :=
  mkWorld (mkHook (downPosition (hook w))
                  (Some (mkPosition (x world) (y world)))
                  (previousPosition (hook w)) (pointerMoved (hook w))
                  (doubleClickTimeout (hook w)))
          (interactionState w) (viewportRef w) (timers w) (now w)
          (nextHandle w).

Definition selected_world (r w : World) (world : Point) : World :=
  mkWorld (mkHook (Some (toCell world))
                  (Some (mkPosition (x world) (y world)))
                  (Some (mkMultiCursor (toCell world) (toCell world)))
                  false
                  (doubleClickTimeout (hook w)))
          (selected (interactionState r) (toCell world))
          (viewportRef w) (timers w) (now w) (nextHandle w).

(** The state that [onPointerMove] writes while the pointer is in the down
    cell, and the one it writes for a drag to another cell. *)
Definition collapsed (down : MousePosition Z) : GridInteractionState :=
  mkInteraction down down (mkMultiCursor down down) false false EmptyString.

Definition dragged (down current : MousePosition Z) : GridInteractionState :=
  mkInteraction current down (normalize down current) true false EmptyString.

Definition position_eqb (a b : MousePosition Z) : bool :=
  ((x a =? x b) && (y a =? y b))%Z.

Definition rectangle_eqb (a b : MultiCursorPosition) : bool :=
  ((x (originPosition a) =? x (originPosition b))
   && (y (originPosition a) =? y (originPosition b))
   && (x (terminalPosition a) =? x (terminalPosition b))
   && (y (terminalPosition a) =? y (terminalPosition b)))%Z.

(** The movement test of [onPointerMove], and the world once it has run. *)
Definition exceeds (r : World) (viewport : Viewport) (raw : MousePosition float)
    (world : Point) : bool :=
  negb (pointerMoved (hook r))
  && PrimFloat.ltb (MINIMUM_MOVE_POSITION * scale_x viewport)%float
                   (manhattan raw world).

Definition flagged_world (flag : bool) (w : World) : World :=
  if flag
  then mkWorld (mkHook (downPosition (hook w)) (downPositionRaw (hook w))
                       (previousPosition (hook w)) true
                       (doubleClickTimeout (hook w)))
               (interactionState w) (viewportRef w) (timers w) (now w)
               (nextHandle w)
  else w.

Definition collapsed_world (w : World) (down : MousePosition Z) : World :=
  mkWorld (hook w) (collapsed down) (viewportRef w) (timers w) (now w)
          (nextHandle w).

Definition dragged_world (w : World) (down current : MousePosition Z) : World :=
  mkWorld (mkHook (downPosition (hook w)) (downPositionRaw (hook w))
                  (Some (normalize down current)) (pointerMoved (hook w))
                  (doubleClickTimeout (hook w)))
          (dragged down current)
          (match viewportRef w with
           | Some v => Some (mkViewport (scale_x v) true)
           | None => None
           end)
          (timers w) (now w) (nextHandle w).

(** [onPointerUp], run in the world [w], arms the window: it asks the host
    for one timer of 500 units, the host holds that timer from then on, and
    the handle of that timer is the one stored. *)
Definition arms (w : World) (res : unit * World * list Effect) : Prop :=
  exists h,
    effects_of res = [SetTimeout h DOUBLE_CLICK_TIME] /\
    timers (world_of res)
      = timers w ++ [mkTimer h (now w + DOUBLE_CLICK_TIME)] /\
    doubleClickTimeout (hook (world_of res)) = Some h.

(** [onPointerUp], run in the world [w], leaves the window as it is: it asks
    for no timer, the host's timers and the stored handle are unchanged. *)
Definition leaves_window (w : World) (res : unit * World * list Effect)
    : Prop :=
  effects_of res = [] /\
  timers (world_of res) = timers w /\
  doubleClickTimeout (hook (world_of res)) = doubleClickTimeout (hook w).

(** ** Invariants of the hook *)

(** The down-record is there as a whole or not at all: the down cell and the
    previous rectangle are set and cleared together, and a down cell comes
    with a raw down position. *)
Definition coherent (h : HookState) : Prop :=
  (downPosition h = None <-> previousPosition h = None) /\
  (downPosition h <> None -> downPositionRaw h <> None).

(** A stored handle is backed by a pending timer that is due within the
    double-click time. *)
Definition closes_in_time (w : World) : Prop :=
  doubleClickTimeout (hook w) <> None ->
  exists timer,
    In timer (timers w) /\ (due timer <= now w + DOUBLE_CLICK_TIME)%N.

(** The events of a gesture that stays within the movement threshold, for a
    zoom scale and a raw down position: pointer-moves no further away than
    the threshold, and the passing of time. *)
Definition within_threshold (scale : float) (raw : MousePosition float)
    (ev : Event) : Prop :=
  match ev with
  | PointerMove world _ =>
      PrimFloat.ltb (MINIMUM_MOVE_POSITION * scale)%float
                    (manhattan raw world) = false
  | Elapse _ => True
  | _ => False
  end.

(** A gesture whose pointer-up will still arm the window: the viewport is
    there at the given scale, the down-record is complete, and the movement
    flag is down. *)
Definition unmoved (scale : float) (raw : MousePosition float) (w : World)
    : Prop :=
  (exists viewport, viewportRef w = Some viewport /\ scale_x viewport = scale) /\
  downPosition (hook w) <> None /\
  previousPosition (hook w) <> None /\
  downPositionRaw (hook w) = Some raw /\
  pointerMoved (hook w) = false.

(** ** Tactics and first facts *)

Unset Implicit Arguments.

(** [Math_floor] is the floor: for a finite double [+/- m * 2^e] it is the
    integer [n] with [n <= +/- m * 2^e < n + 1]. *)
Lemma Math_floor_spec (f : float) (s : bool) (m : positive) (e : Z) :
  Prim2SF f = S754_finite s m e ->
  let v := if s then Z.neg m else Z.pos m in
  if (0 <=? e)%Z
  then Math_floor f = (v * 2 ^ e)%Z
  else (Math_floor f * 2 ^ (- e) <= v < (Math_floor f + 1) * 2 ^ (- e))%Z.
Proof.
  intros Hf. unfold Math_floor. rewrite Hf. cbv zeta.
  destruct (0 <=? e)%Z eqn:He; [reflexivity|].
  apply Z.leb_gt in He.
  assert (Hpos : (0 < 2 ^ (- e))%Z) by (apply Z.pow_pos_nonneg; lia).
  set (v := if s then Z.neg m else Z.pos m).
  pose proof (Z.div_mod v (2 ^ (- e)) ltac:(lia)) as Hdm.
  pose proof (Z.mod_pos_bound v (2 ^ (- e)) Hpos) as Hmod.
  nia.
Qed.

Lemma truthy_iff (v : option Z) :
  truthy v = true <-> exists h, v = Some h /\ h <> 0%Z.
Proof.
  destruct v as [n|]; simpl.
  - rewrite negb_true_iff, Z.eqb_neq. split.
    + intros Hn. exists n. auto.
    + intros [h [Heq Hh]]. injection Heq as ->. exact Hh.
  - split; [discriminate | intros [h [Heq _]]; discriminate].
Qed.

Lemma position_eta (num : Type) (p : MousePosition num) :
  mkPosition (x p) (y p) = p.
Proof. destruct p. reflexivity. Qed.

Lemma position_eqb_iff (a b : MousePosition Z) :
  position_eqb a b = true <-> a = b.
Proof.
  unfold position_eqb. rewrite andb_true_iff, !Z.eqb_eq.
  destruct a as [ax ay], b as [bx by']. cbn. split.
  - intros [-> ->]. reflexivity.
  - intros Heq. injection Heq as -> ->. auto.
Qed.

Lemma rectangle_eqb_iff (a b : MultiCursorPosition) :
  rectangle_eqb a b = true <-> a = b.
Proof.
  unfold rectangle_eqb. rewrite !andb_true_iff, !Z.eqb_eq.
  destruct a as [[aox aoy] [atx aty]], b as [[box boy] [btx bty]]. cbn. split.
  - intros [[[-> ->] ->] ->]. reflexivity.
  - intros Heq. injection Heq as -> -> -> ->. auto.
Qed.

Lemma origin_is_min (a b : Z) : (if (a <? b)%Z then a else b) = Z.min a b.
Proof. destruct (Z.ltb_spec a b); lia. Qed.

Lemma terminal_is_max (a b : Z) : (if (a >? b)%Z then a else b) = Z.max a b.
Proof. rewrite Z.gtb_ltb. destruct (Z.ltb_spec b a); lia. Qed.

Lemma normalize_normalized (down current : MousePosition Z) :
  normalized (normalize down current).
Proof. unfold normalized, normalize. cbn. lia. Qed.

Lemma normalize_injective (down a b : MousePosition Z) :
  normalize down a = normalize down b -> a = b.
Proof.
  destruct down as [dx dy], a as [ax ay], b as [bx by']. unfold normalize. cbn.
  intros Heq. injection Heq as Hx Hy Hx' Hy'. f_equal; lia.
Qed.

Lemma expired_idle (h : HookState) :
  doubleClickTimeout h = None -> expired h = h.
Proof. destruct h. cbn. intros ->. reflexivity. Qed.

Ltac in_log :=
  repeat match goal with
  | H : False |- _ => destruct H
  | H : (_ = _ :> Effect) \/ _ |- _ => destruct H as [H|H]
  | H : In _ [] |- _ => destruct H
  | H : In _ (_ :: _) |- _ => destruct H as [H|H]
  | H : SetInteractionState _ = SetInteractionState _ |- _ =>
      injection H as ?; subst
  | H : SetTimeout _ _ = SetTimeout _ _ |- _ => injection H as ? ?; subst
  | H : _ = _ :> Effect |- _ => discriminate H
  end.

(** ** The handlers, computed *)

Lemma isDoubleClick_cases (r w : World) (world : Point) (event : PointerEvent) :
  isDoubleClick r world event w = (false, w, []) \/
  isDoubleClick r world event w
    = (true, consumed_world r w event,
       [DoubleClickCanvas event (interactionState r)]).
Proof.
  unfold isDoubleClick.
  destruct (negb (button event =? 0)%Z); [left; reflexivity|].
  destruct (downPositionRaw (hook r)) as [raw|]; [|left; reflexivity].
  destruct (viewportRef r) as [viewport|]; [|left; reflexivity].
  match goal with |- context [if ?c then _ else _] => destruct c end;
    [right|left]; reflexivity.
Qed.

Lemma onPointerDown_eq (r w : World) (world : Point) (event : PointerEvent) :
  onPointerDown r world event w =
  if value_of (isDoubleClick r world event w)
  then (tt, consumed_world r w event,
        [DoubleClickCanvas event (interactionState r)])
  else match viewportRef r with
       | None => (tt, w, [])
       | Some _ =>
           if swallowed r world event
           then (tt, swallowed_world w world, [])
           else (tt, selected_world r w world,
                 [SetInteractionState
                    (selected (interactionState r) (toCell world))])
       end.
Proof.
  unfold onPointerDown, bind at 1.
  destruct (isDoubleClick_cases r w world event) as [-> | ->];
    cbn [value_of fst snd]; [|reflexivity].
  destruct (viewportRef r) as [viewport|]; [|reflexivity].
  unfold swallowed, contains, toCell.
  fold (rightClick event). cbn [x y].
  destruct (rightClick event); cbn [andb];
    [destruct (showMultiCursor (interactionState r)); cbn [andb negb orb]|];
    try reflexivity.
  match goal with |- context [if ?c then ret tt else _] => destruct c end;
    reflexivity.
Qed.

Lemma onPointerMove_inactive (r w : World) (world : Point) (event : PointerEvent) :
  viewportRef r = None \/ downPosition (hook r) = None \/
  previousPosition (hook r) = None \/ downPositionRaw (hook r) = None ->
  onPointerMove r world event w = (tt, w, []).
Proof.
  unfold onPointerMove. intros [H|[H|[H|H]]]; rewrite H;
    repeat match goal with
           | |- context [match ?e with Some _ => _ | None => _ end] => destruct e
           end; reflexivity.
Qed.

Lemma onPointerMove_eq (r w : World) (world : Point) (event : PointerEvent)
    (viewport : Viewport) (down : MousePosition Z)
    (previous : MultiCursorPosition) (raw : MousePosition float) :
  viewportRef r = Some viewport ->
  downPosition (hook r) = Some down ->
  previousPosition (hook r) = Some previous ->
  downPositionRaw (hook r) = Some raw ->
  let w1 := flagged_world (exceeds r viewport raw world) w in
  onPointerMove r world event w =
  if position_eqb (toCell world) down
  then (tt, collapsed_world w1 down, [SetInteractionState (collapsed down)])
  else if rectangle_eqb previous (normalize down (toCell world))
       then (tt, w1, [])
       else (tt, dragged_world w1 down (toCell world),
             [SetInteractionState (dragged down (toCell world)); MarkDirty]).
Proof.
  intros Hv Hd Hp Hr. cbv zeta. unfold onPointerMove.
  rewrite Hv, Hd, Hp, Hr. rewrite !origin_is_min, !terminal_is_max.
  fold (exceeds r viewport raw world).
  destruct down as [dx dy]. cbn [x y].
  change ((Math_floor (x world / CELL_WIDTH)%float =? dx)%Z
          && (Math_floor (y world / CELL_HEIGHT)%float =? dy)%Z)
    with (position_eqb (toCell world) (mkPosition dx dy)).
  match goal with
  | |- context [negb ?c] =>
      change c with (rectangle_eqb previous
                       (normalize (mkPosition dx dy) (toCell world)))
  end.
  destruct (exceeds r viewport raw world);
    destruct (position_eqb (toCell world) (mkPosition dx dy));
    try reflexivity;
    destruct (rectangle_eqb previous
                (normalize (mkPosition dx dy) (toCell world)));
    reflexivity.
Qed.

Lemma onPointerUp_eq (r w : World) :
  onPointerUp r w =
  match downPosition (hook r), pointerMoved (hook r) with
  | Some _, false =>
      (tt,
       mkWorld (mkHook None (downPositionRaw (hook w)) None
                       (pointerMoved (hook w)) (Some (nextHandle w)))
               (interactionState w) (viewportRef w)
               (timers w ++ [mkTimer (nextHandle w) (now w + DOUBLE_CLICK_TIME)])
               (now w) (nextHandle w + 1)%Z,
       [SetTimeout (nextHandle w) DOUBLE_CLICK_TIME])
  | _, _ =>
      (tt,
       mkWorld (mkHook None (downPositionRaw (hook w)) None
                       (pointerMoved (hook w)) (doubleClickTimeout (hook w)))
               (interactionState w) (viewportRef w) (timers w) (now w)
               (nextHandle w),
       [])
  end.
Proof.
  unfold onPointerUp.
  destruct (downPosition (hook r)); [destruct (pointerMoved (hook r))|];
    reflexivity.
Qed.

(** ** ClickClassifier *)

(** C1.  [isDoubleClick] answers [true] exactly when the button is the primary
    one, a raw down position is stored, the viewport is there, a non-zero
    timer handle is stored, the pointer has not moved, and the Manhattan
    distance from the stored raw position to the new one, computed as the
    source computes it, is strictly below 5 times the horizontal zoom scale.
    When it answers [true] it calls the double-click handler once (and clears
    the stored handle); when it answers [false] it calls nothing and changes
    nothing. *)
Theorem isDoubleClick_iff (r w : World) (world : Point) (event : PointerEvent) :
  let res := isDoubleClick r world event w in
  (value_of res = true <->
     button event = 0%Z /\
     exists raw viewport h,
       downPositionRaw (hook r) = Some raw /\
       viewportRef r = Some viewport /\
       doubleClickTimeout (hook r) = Some h /\ h <> 0%Z /\
       pointerMoved (hook r) = false /\
       PrimFloat.ltb (abs (x raw - x world) + abs (y raw - y world))
                     (5 * scale_x viewport) = true) /\
  (if value_of res
   then effects_of res = [DoubleClickCanvas event (interactionState r)] /\
        doubleClickTimeout (hook (world_of res)) = None
   else effects_of res = [] /\ world_of res = w).
Proof.
  cbv zeta. unfold isDoubleClick.
  destruct (button event =? 0)%Z eqn:Hb; cbn [negb].
  2:{ apply Z.eqb_neq in Hb. cbn. split; [|auto].
      split; [discriminate | intros [Hb' _]; contradiction]. }
  apply Z.eqb_eq in Hb.
  destruct (downPositionRaw (hook r)) as [raw|] eqn:Hraw.
  2:{ cbn. split; [|auto]. split; [discriminate|].
      intros [_ [raw [v [h [Habs _]]]]]. discriminate. }
  destruct (viewportRef r) as [viewport|] eqn:Hv.
  2:{ cbn. split; [|auto]. split; [discriminate|].
      intros [_ [raw' [v [h [_ [Habs _]]]]]]. discriminate. }
  destruct (truthy (doubleClickTimeout (hook r))
            && negb (pointerMoved (hook r))
            && PrimFloat.ltb (manhattan raw world)
                             (MINIMUM_MOVE_POSITION * scale_x viewport))
    eqn:Hc.
  - apply andb_true_iff in Hc. destruct Hc as [Hc Hlt].
    apply andb_true_iff in Hc. destruct Hc as [Ht Hm].
    apply negb_true_iff in Hm.
    apply truthy_iff in Ht. destruct Ht as [h [Hh Hnz]].
    cbn. split; [|auto]. split; [|reflexivity].
    intros _. split; [exact Hb|]. exists raw, viewport, h.
    repeat split; auto.
  - cbn. split; [|auto]. split; [discriminate|].
    intros [_ [raw' [v [h [Hr [Hv' [Hh [Hnz [Hm Hlt]]]]]]]]].
    injection Hr as <-. injection Hv' as <-.
    assert (Ht : truthy (doubleClickTimeout (hook r)) = true)
      by (apply truthy_iff; exists h; auto).
    unfold manhattan, MINIMUM_MOVE_POSITION in Hc.
    rewrite Ht, Hm, Hlt in Hc. discriminate.
Qed.

(** ** What a handler writes *)

Lemma onPointerDown_write (r w : World) (world : Point) (event : PointerEvent)
    (s : GridInteractionState) :
  In (SetInteractionState s) (effects_of (onPointerDown r world event w)) ->
  value_of (isDoubleClick r world event w) = false /\
  viewportRef r <> None /\
  swallowed r world event = false /\
  s = selected (interactionState r) (toCell world) /\
  world_of (onPointerDown r world event w) = selected_world r w world.
Proof.
  rewrite onPointerDown_eq.
  destruct (value_of (isDoubleClick r world event w));
    [cbn [effects_of world_of snd fst]; intros Hin; in_log|].
  destruct (viewportRef r); [|cbn [effects_of world_of snd fst]; intros Hin; in_log].
  destruct (swallowed r world event); cbn [effects_of world_of snd fst]; intros Hin; in_log.
  repeat split; congruence.
Qed.

Lemma onPointerMove_write (r w : World) (world : Point) (event : PointerEvent)
    (s : GridInteractionState) :
  In (SetInteractionState s) (effects_of (onPointerMove r world event w)) ->
  exists down,
    downPosition (hook r) = Some down /\
    ((toCell world = down /\ s = collapsed down) \/
     (toCell world <> down /\ s = dragged down (toCell world))).
Proof.
  destruct (viewportRef r) as [viewport|] eqn:Hv;
    [|rewrite onPointerMove_inactive by auto; intros []].
  destruct (downPosition (hook r)) as [down|] eqn:Hd;
    [|rewrite onPointerMove_inactive by auto; intros []].
  destruct (previousPosition (hook r)) as [previous|] eqn:Hp;
    [|rewrite onPointerMove_inactive by auto; intros []].
  destruct (downPositionRaw (hook r)) as [raw|] eqn:Hr;
    [|rewrite onPointerMove_inactive by auto; intros []].
  rewrite (@onPointerMove_eq r w world event _ _ _ _ Hv Hd Hp Hr).
  intros H.
  exists down. split; [reflexivity|].
  destruct (position_eqb (toCell world) down) eqn:Hc.
  - apply position_eqb_iff in Hc. cbn in H. in_log. auto.
  - assert (Hne : toCell world <> down).
    { intros Heq. apply position_eqb_iff in Heq. congruence. }
    destruct (rectangle_eqb previous (normalize down (toCell world)));
      cbn [effects_of snd] in H; in_log. auto.
Qed.

Lemma onPointerUp_no_write (r w : World) (s : GridInteractionState) :
  ~ In (SetInteractionState s) (effects_of (onPointerUp r w)).
Proof.
  rewrite onPointerUp_eq.
  destruct (downPosition (hook r)); [destruct (pointerMoved (hook r))|];
    cbn [effects_of world_of snd fst]; intros Hin; in_log.
Qed.

(** ** Timers *)

Lemma fire_all (fired : list Timer) (w : World) :
  let w' := fold_left (fun w' (_ : Timer) => world_of (setDoubleClickTimeout None w'))
                      fired w in
  hook w' = match fired with [] => hook w | _ :: _ => expired (hook w) end /\
  interactionState w' = interactionState w /\
  viewportRef w' = viewportRef w /\
  timers w' = timers w /\
  now w' = now w /\
  nextHandle w' = nextHandle w.
Proof.
  revert w. induction fired as [|timer fired IH]; intros w; cbn [fold_left].
  - repeat split.
  - specialize (IH (world_of (setDoubleClickTimeout None w))).
    cbv zeta in IH. destruct IH as [Hh [Hi [Hv [Ht [Hn Hx]]]]].
    cbv zeta. rewrite Hh, Hi, Hv, Ht, Hn, Hx.
    destruct fired; repeat split.
Qed.

Lemma elapse_frame (dt : N) (w : World) :
  (hook (elapse dt w) = hook w \/ hook (elapse dt w) = expired (hook w)) /\
  interactionState (elapse dt w) = interactionState w /\
  viewportRef (elapse dt w) = viewportRef w /\
  timers (elapse dt w) = filter (fun timer => negb (is_due (now w + dt) timer)) (timers w) /\
  now (elapse dt w) = (now w + dt)%N /\
  nextHandle (elapse dt w) = nextHandle w.
Proof.
  unfold elapse.
  match goal with
  | |- context [fold_left ?f ?l ?a] =>
      destruct (fire_all l a) as [Hh [Hi [Hv [Ht [Hn Hx]]]]]
  end.
  rewrite Hh, Hi, Hv, Ht, Hn, Hx. cbn.
  destruct (filter (is_due (now w + dt)) (timers w)); repeat split; auto.
Qed.

(** ** Runs *)

Lemma run_app (w : World) (l1 l2 : list Event) :
  run w (l1 ++ l2) =
  (fst (run (fst (run w l1)) l2),
   snd (run w l1) ++ snd (run (fst (run w l1)) l2)).
Proof.
  revert w. induction l1 as [|ev l1 IH]; intros w; cbn [run app fst snd].
  - destruct (run w l2); reflexivity.
  - rewrite IH. cbn [fst snd]. rewrite app_assoc. reflexivity.
Qed.

(** What a move leaves of the hook state. *)
Lemma onPointerMove_frame (r : World) (world : Point) (event : PointerEvent) :
  let w' := world_of (onPointerMove r world event r) in
  downPosition (hook w') = downPosition (hook r) /\
  downPositionRaw (hook w') = downPositionRaw (hook r) /\
  doubleClickTimeout (hook w') = doubleClickTimeout (hook r) /\
  (pointerMoved (hook r) = true -> pointerMoved (hook w') = true) /\
  (previousPosition (hook r) <> None -> previousPosition (hook w') <> None) /\
  timers w' = timers r /\ now w' = now r /\ nextHandle w' = nextHandle r.
Proof.
  cbv zeta.
  destruct (viewportRef r) as [viewport|] eqn:Hv;
    [|rewrite onPointerMove_inactive by auto; cbn; repeat split; auto; congruence].
  destruct (downPosition (hook r)) as [down|] eqn:Hd;
    [|rewrite onPointerMove_inactive by auto; cbn; repeat split; auto; congruence].
  destruct (previousPosition (hook r)) as [previous|] eqn:Hp;
    [|rewrite onPointerMove_inactive by auto; cbn; repeat split; auto; congruence].
  destruct (downPositionRaw (hook r)) as [raw|] eqn:Hr;
    [|rewrite onPointerMove_inactive by auto; cbn; repeat split; auto; congruence].
  rewrite (@onPointerMove_eq r r world event _ _ _ _ Hv Hd Hp Hr).
  unfold flagged_world.
  destruct (exceeds r viewport raw world);
    destruct (position_eqb (toCell world) down);
    try destruct (rectangle_eqb previous (normalize down (toCell world)));
    cbn [world_of fst snd collapsed_world dragged_world hook downPosition
         downPositionRaw previousPosition pointerMoved doubleClickTimeout
         timers now nextHandle];
    rewrite ?Hd, ?Hr, ?Hp; repeat split; auto; try discriminate.
Qed.

Lemma onPointerMove_after_drag (w : World) (world : Point)
    (event : PointerEvent) (viewport : Viewport) (down : MousePosition Z)
    (previous : MultiCursorPosition) (raw : MousePosition float) :
  viewportRef w = Some viewport ->
  downPosition (hook w) = Some down ->
  previousPosition (hook w) = Some previous ->
  downPositionRaw (hook w) = Some raw ->
  toCell world <> down ->
  let w1 := world_of (onPointerMove w world event w) in
  (exists viewport1, viewportRef w1 = Some viewport1) /\
  downPosition (hook w1) = Some down /\
  previousPosition (hook w1) = Some (normalize down (toCell world)) /\
  downPositionRaw (hook w1) = Some raw.
Proof.
  intros Hv Hd Hp Hr Hne. cbv zeta.
  rewrite (@onPointerMove_eq w w world event _ _ _ _ Hv Hd Hp Hr).
  destruct (position_eqb (toCell world) down) eqn:Hc;
    [apply position_eqb_iff in Hc; contradiction|].
  unfold flagged_world.
  destruct (rectangle_eqb previous (normalize down (toCell world))) eqn:Hq;
    [apply rectangle_eqb_iff in Hq|];
    destruct (exceeds w viewport raw world);
    cbn [world_of fst snd dragged_world hook viewportRef downPosition
         previousPosition downPositionRaw];
    rewrite ?Hv, ?Hd, ?Hp, ?Hr, ?Hq; repeat split; eauto.
Qed.

Lemma onPointerMove_in_down_cell (w : World) (world : Point)
    (event : PointerEvent) (viewport : Viewport) (down : MousePosition Z)
    (previous : MultiCursorPosition) (raw : MousePosition float) :
  viewportRef w = Some viewport ->
  downPosition (hook w) = Some down ->
  previousPosition (hook w) = Some previous ->
  downPositionRaw (hook w) = Some raw ->
  toCell world = down ->
  let w1 := world_of (onPointerMove w world event w) in
  viewportRef w1 = Some viewport /\
  downPosition (hook w1) = Some down /\
  previousPosition (hook w1) = Some previous /\
  downPositionRaw (hook w1) = Some raw /\
  interactionState w1 = collapsed down.
Proof.
  intros Hv Hd Hp Hr Hc. cbv zeta.
  rewrite (@onPointerMove_eq w w world event _ _ _ _ Hv Hd Hp Hr).
  apply position_eqb_iff in Hc. rewrite Hc. unfold flagged_world.
  destruct (exceeds w viewport raw world);
    cbn [world_of fst snd collapsed_world hook viewportRef downPosition
         previousPosition downPositionRaw interactionState];
    rewrite ?Hv, ?Hd, ?Hp, ?Hr; repeat split.
Qed.

Lemma quiet_frame (w : World) (ev : Event) :
  quiet ev ->
  let w' := fst (dispatch w ev) in
  downPosition (hook w') = downPosition (hook w) /\
  downPositionRaw (hook w') = downPositionRaw (hook w) /\
  (doubleClickTimeout (hook w') = doubleClickTimeout (hook w) \/
   doubleClickTimeout (hook w') = None) /\
  (pointerMoved (hook w) = true -> pointerMoved (hook w') = true) /\
  (previousPosition (hook w) <> None -> previousPosition (hook w') <> None).
Proof.
  intros Hq. destruct ev as [world event|world event| |dt|viewport s];
    try contradiction; cbn [dispatch fst].
  - destruct (onPointerMove_frame w world event)
      as [Hd [Hr [Ht [Hm [Hp _]]]]]. auto 10.
  - destruct (elapse_frame dt w) as [[Hh|Hh] _]; rewrite Hh; cbn; auto 10.
  - cbn. auto 10.
Qed.

Lemma quiet_run_frame (evs : list Event) (w : World) :
  Forall quiet evs ->
  let w' := fst (run w evs) in
  downPosition (hook w') = downPosition (hook w) /\
  downPositionRaw (hook w') = downPositionRaw (hook w) /\
  (doubleClickTimeout (hook w') = doubleClickTimeout (hook w) \/
   doubleClickTimeout (hook w') = None) /\
  (pointerMoved (hook w) = true -> pointerMoved (hook w') = true) /\
  (previousPosition (hook w) <> None -> previousPosition (hook w') <> None).
Proof.
  intros Hq. revert w. induction Hq as [|ev evs Hev _ IH]; intros w.
  - cbn. auto 10.
  - cbn [run fst]. cbv zeta.
    destruct (quiet_frame w ev Hev) as [Hd [Hr [Ht [Hm Hp]]]].
    destruct (IH (fst (dispatch w ev))) as [Hd' [Hr' [Ht' [Hm' Hp']]]].
    rewrite Hd', Hr', Hd, Hr. repeat split; auto.
    destruct Ht' as [Ht'|Ht']; [|auto]. rewrite Ht'. exact Ht.
Qed.

(** ** CoordinateMapper *)

(** C6.  Both handlers resolve a world position by the same componentwise
    floor division [toCell].  A pointer-down that is not consumed, finds the
    viewport and is not swallowed writes the cursor and both corners of the
    rectangle on [toCell world] and stores that cell as down-record.  A
    pointer-move with the viewport and a complete down-record writes the
    collapsed state when [toCell world] is the down cell, writes the drag to
    [toCell world] when the rectangle from the down cell to [toCell world]
    is not the previous one, and writes nothing when it is.  And whatever
    the two handlers write is of these forms. *)
Theorem toCell_floor_division (r w : World) (world : Point)
    (event : PointerEvent) (s : GridInteractionState) :
  (value_of (isDoubleClick r world event w) = false ->
   viewportRef r <> None ->
   swallowed r world event = false ->
   effects_of (onPointerDown r world event w)
     = [SetInteractionState (selected (interactionState r) (toCell world))] /\
   downPosition (hook (world_of (onPointerDown r world event w)))
     = Some (toCell world) /\
   previousPosition (hook (world_of (onPointerDown r world event w)))
     = Some (mkMultiCursor (toCell world) (toCell world))) /\
  (forall (viewport : Viewport) (down : MousePosition Z)
          (previous : MultiCursorPosition) (raw : MousePosition float),
     viewportRef r = Some viewport ->
     downPosition (hook r) = Some down ->
     previousPosition (hook r) = Some previous ->
     downPositionRaw (hook r) = Some raw ->
     (toCell world = down ->
      effects_of (onPointerMove r world event w)
        = [SetInteractionState (collapsed down)]) /\
     (toCell world <> down ->
      previous <> normalize down (toCell world) ->
      effects_of (onPointerMove r world event w)
        = [SetInteractionState (dragged down (toCell world)); MarkDirty] /\
      previousPosition (hook (world_of (onPointerMove r world event w)))
        = Some (normalize down (toCell world))) /\
     (toCell world <> down ->
      previous = normalize down (toCell world) ->
      effects_of (onPointerMove r world event w) = [])) /\
  (In (SetInteractionState s) (effects_of (onPointerDown r world event w)) ->
   cursorPosition s = toCell world /\
   multiCursorPosition s = mkMultiCursor (toCell world) (toCell world) /\
   downPosition (hook (world_of (onPointerDown r world event w)))
     = Some (toCell world)) /\
  (In (SetInteractionState s) (effects_of (onPointerMove r world event w)) ->
   exists down,
     downPosition (hook r) = Some down /\
     if showMultiCursor s
     then toCell world <> down /\
          keyboardMovePosition s = toCell world /\
          multiCursorPosition s = normalize down (toCell world)
     else toCell world = down /\
          multiCursorPosition s = mkMultiCursor down down).
Proof.
  split; [|split; [|split]].
  - intros Hdc Hv Hsw. rewrite onPointerDown_eq, Hdc, Hsw.
    destruct (viewportRef r); [|congruence]. cbn. auto.
  - intros viewport down previous raw Hv Hd Hp Hr.
    rewrite (@onPointerMove_eq r w world event _ _ _ _ Hv Hd Hp Hr).
    split; [|split].
    + intros Hc. apply position_eqb_iff in Hc. rewrite Hc. reflexivity.
    + intros Hc Hq.
      destruct (position_eqb (toCell world) down) eqn:Hc';
        [apply position_eqb_iff in Hc'; contradiction|].
      destruct (rectangle_eqb previous (normalize down (toCell world))) eqn:Hq';
        [apply rectangle_eqb_iff in Hq'; contradiction|].
      cbn. auto.
    + intros Hc Hq.
      destruct (position_eqb (toCell world) down) eqn:Hc';
        [apply position_eqb_iff in Hc'; contradiction|].
      apply rectangle_eqb_iff in Hq. rewrite Hq. reflexivity.
  - intros Hin. apply onPointerDown_write in Hin.
    destruct Hin as [_ [_ [_ [-> ->]]]]. cbn. auto.
  - intros Hin. apply onPointerMove_write in Hin.
    destruct Hin as [down [Hd [[Hc ->]|[Hc ->]]]]; exists down; cbn; auto.
Qed.

(** ** SelectionTracker *)

(** C3.  Whatever events arrive, in whatever order and from whatever state,
    every rectangle that the handlers write into the interaction state has
    its origin at or before its terminal on both axes.  A pointer-down
    followed by pointer-moves is one such sequence. *)
Theorem selection_rectangle_normalized (w : World) (evs : list Event)
    (s : GridInteractionState) :
  In (SetInteractionState s) (snd (run w evs)) ->
  normalized (multiCursorPosition s).
Proof.
  revert w. induction evs as [|ev evs IH]; intros w Hin; cbn [run snd] in Hin.
  - destruct Hin.
  - apply in_app_or in Hin. destruct Hin as [Hin|Hin]; [|exact (IH _ Hin)].
    destruct ev as [world event|world event| |dt|viewport s'];
      cbn [dispatch snd] in Hin; try destruct Hin.
    + apply onPointerDown_write in Hin. destruct Hin as [_ [_ [_ [-> _]]]].
      unfold normalized. cbn. lia.
    + apply onPointerMove_write in Hin.
      destruct Hin as [down [_ [[_ ->]|[_ ->]]]].
      * unfold normalized. cbn. lia.
      * apply normalize_normalized.
    + exfalso. exact (onPointerUp_no_write _ _ _ Hin).
Qed.

Lemma quiet_run_writes (evs : list Event) (w : World) (down : MousePosition Z)
    (s : GridInteractionState) :
  Forall quiet evs ->
  downPosition (hook w) = Some down ->
  In (SetInteractionState s) (snd (run w evs)) ->
  cursorPosition s = down /\ showInput s = false /\
  inputInitialValue s = EmptyString.
Proof.
  intros Hq. revert w. induction Hq as [|ev evs Hev _ IH]; intros w Hd Hin;
    cbn [run snd] in Hin.
  - destruct Hin.
  - apply in_app_or in Hin. destruct Hin as [Hin|Hin].
    + destruct ev as [world event|world event| |dt|viewport s'];
        try contradiction; cbn [dispatch snd] in Hin; try destruct Hin.
      apply onPointerMove_write in Hin.
      destruct Hin as [down' [Hd' [[_ ->]|[_ ->]]]];
        rewrite Hd in Hd'; injection Hd' as <-; cbn; auto.
    + apply (IH (fst (dispatch w ev))); [|exact Hin].
      destruct (quiet_frame w ev Hev) as [Hd' _]. rewrite Hd'. exact Hd.
Qed.

(** C10.  In a gesture that begins with a pointer-down that selects a cell,
    every interaction state written until the next pointer-down or
    pointer-up has its cursor on the cell of that pointer-down, has
    [showInput] false and has the empty string as initial input value. *)
Theorem move_keeps_cursor_on_down_cell (w0 : World) (world0 : Point)
    (event0 : PointerEvent) (s0 : GridInteractionState) (during : list Event)
    (s : GridInteractionState) :
  In (SetInteractionState s0) (effects_of (onPointerDown w0 world0 event0 w0)) ->
  Forall quiet during ->
  In (SetInteractionState s)
     (snd (run (world_of (onPointerDown w0 world0 event0 w0)) during)) ->
  cursorPosition s = toCell world0 /\ showInput s = false /\
  inputInitialValue s = EmptyString.
Proof.
  intros Hdown Hq Hin. apply onPointerDown_write in Hdown.
  destruct Hdown as [_ [_ [_ [_ Hw]]]]. rewrite Hw in Hin.
  apply (quiet_run_writes during (selected_world w0 w0 world0) (toCell world0) s Hq);
    [reflexivity | exact Hin].
Qed.

(** ** Arming the double-click window *)

(** A move beyond the threshold, with a down-record in place, raises the
    movement flag. *)
Lemma onPointerMove_exceeds (w : World) (world : Point) (event : PointerEvent)
    (viewport : Viewport) (raw : MousePosition float) :
  viewportRef w = Some viewport ->
  downPosition (hook w) <> None ->
  previousPosition (hook w) <> None ->
  downPositionRaw (hook w) = Some raw ->
  PrimFloat.ltb (MINIMUM_MOVE_POSITION * scale_x viewport)
                (manhattan raw world) = true ->
  pointerMoved (hook (world_of (onPointerMove w world event w))) = true.
Proof.
  intros Hv Hd Hp Hr Hlt.
  destruct (downPosition (hook w)) as [down|] eqn:Hd'; [|congruence].
  destruct (previousPosition (hook w)) as [previous|] eqn:Hp'; [|congruence].
  rewrite (@onPointerMove_eq w w world event _ _ _ _ Hv Hd' Hp' Hr).
  unfold exceeds, flagged_world. rewrite Hlt.
  destruct (pointerMoved (hook w)) eqn:Hm; cbn [negb andb];
    destruct (position_eqb (toCell world) down);
    try destruct (rectangle_eqb previous (normalize down (toCell world)));
    cbn; auto.
Qed.

Lemma onPointerUp_window (r w : World) :
  (arms w (onPointerUp r w) <->
   (exists down, downPosition (hook r) = Some down) /\
   pointerMoved (hook r) = false) /\
  (leaves_window w (onPointerUp r w) <->
   downPosition (hook r) = None \/ pointerMoved (hook r) = true).
Proof.
  unfold arms, leaves_window. rewrite onPointerUp_eq.
  destruct (downPosition (hook r)) as [down|];
    [destruct (pointerMoved (hook r))|];
    cbn [effects_of world_of fst snd timers hook doubleClickTimeout]; split.
  - split; [intros [h [Habs _]]; discriminate | intros [_ Habs]; discriminate].
  - split; auto.
  - split; [intros _; split; [exists down|]; reflexivity|].
    intros _. exists (nextHandle w). auto.
  - split; [intros [Habs _]; discriminate | intros [Habs|Habs]; discriminate].
  - split; [intros [h [Habs _]]; discriminate
           | intros [[d Habs] _]; discriminate].
  - split; auto.
Qed.

(** C7.  [onPointerUp] arms the window (it asks for the 500-unit timer, the
    host holds it, its handle is stored) exactly when a down-record exists
    and the movement flag is not set; in every other case it asks for no
    timer and leaves the host's timers and the stored handle as they are.
    In particular, in a gesture that begins with a selecting pointer-down,
    one pointer-move for which the source's test
    [|dx| + |dy| > 5 * scale.x] holds is enough for the pointer-up at the end
    of the gesture not to arm the window. *)
Theorem onPointerUp_arms_iff :
  (forall r w : World,
     (arms w (onPointerUp r w) <->
      (exists down, downPosition (hook r) = Some down) /\
      pointerMoved (hook r) = false) /\
     (leaves_window w (onPointerUp r w) <->
      downPosition (hook r) = None \/ pointerMoved (hook r) = true)) /\
  (forall (w0 : World) (world0 : Point) (event0 : PointerEvent)
          (s0 : GridInteractionState) (before after : list Event)
          (world : Point) (event : PointerEvent) (viewport : Viewport),
     In (SetInteractionState s0)
        (effects_of (onPointerDown w0 world0 event0 w0)) ->
     Forall quiet before -> Forall quiet after ->
     let w1 := world_of (onPointerDown w0 world0 event0 w0) in
     viewportRef (fst (run w1 before)) = Some viewport ->
     PrimFloat.ltb (MINIMUM_MOVE_POSITION * scale_x viewport)
                   (abs (x world0 - x world) + abs (y world0 - y world))
       = true ->
     let w2 := fst (run w1 (before ++ PointerMove world event :: after)) in
     pointerMoved (hook w2) = true /\
     leaves_window w2 (onPointerUp w2 w2) /\
     ~ arms w2 (onPointerUp w2 w2)).
Proof.
  split; [exact onPointerUp_window|].
  intros w0 world0 event0 s0 before after world event viewport Hdown Hqb Hqa
         w1 Hv Hlt w2.
  assert (Hm : pointerMoved (hook w2) = true).
  { apply onPointerDown_write in Hdown. destruct Hdown as [_ [_ [_ [_ Hw]]]].
    fold w1 in Hw.
    destruct (quiet_run_frame before w1 Hqb) as [Hd [Hr [_ [_ Hp]]]].
    subst w2. rewrite run_app. cbn [fst run].
    apply (quiet_run_frame after _ Hqa). cbn [dispatch fst].
    apply onPointerMove_exceeds with (viewport := viewport)
                                     (raw := mkPosition (x world0) (y world0)).
    - exact Hv.
    - rewrite Hd, Hw. discriminate.
    - apply Hp. rewrite Hw. discriminate.
    - rewrite Hr, Hw. reflexivity.
    - exact Hlt. }
  split; [exact Hm|]. split.
  - apply (proj2 (onPointerUp_window w2 w2)). right. exact Hm.
  - intros Harm. apply (proj1 (onPointerUp_window w2 w2)) in Harm.
    destruct Harm as [_ Habs]. congruence.
Qed.

(** ** After a double-click *)

Lemma isDoubleClick_value (r w : World) (world : Point) (event : PointerEvent)
    (raw : MousePosition float) (viewport : Viewport) :
  downPositionRaw (hook r) = Some raw ->
  viewportRef r = Some viewport ->
  value_of (isDoubleClick r world event w)
  = (button event =? 0)%Z
    && (truthy (doubleClickTimeout (hook r))
        && negb (pointerMoved (hook r))
        && PrimFloat.ltb (manhattan raw world)
                    (MINIMUM_MOVE_POSITION * scale_x viewport)).
Proof.
  intros Hr Hv. unfold isDoubleClick. rewrite Hr, Hv.
  destruct (button event =? 0)%Z; cbn [negb andb]; [|reflexivity].
  match goal with |- context [if ?c then _ else _] => destruct c end;
    reflexivity.
Qed.

Lemma isDoubleClick_unarmed (r w : World) (world : Point) (event : PointerEvent) :
  doubleClickTimeout (hook r) = None ->
  value_of (isDoubleClick r world event w) = false.
Proof.
  intros Ht. unfold isDoubleClick. rewrite Ht.
  destruct (negb (button event =? 0)%Z); [reflexivity|].
  destruct (downPositionRaw (hook r)); [|reflexivity].
  destruct (viewportRef r); reflexivity.
Qed.

(** With no down-record and no stored handle, nothing but a pointer-down or a
    pointer-up touches the hook state, and nothing is written or called. *)
Lemma quiet_run_idle (evs : list Event) (w : World) :
  Forall quiet evs ->
  downPosition (hook w) = None ->
  doubleClickTimeout (hook w) = None ->
  hook (fst (run w evs)) = hook w /\ snd (run w evs) = [].
Proof.
  intros Hq. revert w. induction Hq as [|ev evs Hev _ IH]; intros w Hd Ht.
  - cbn. auto.
  - cbn [run fst snd].
    assert (Hstep : hook (fst (dispatch w ev)) = hook w /\
                    snd (dispatch w ev) = []).
    { destruct ev as [world event|world event| |dt|viewport s];
        try contradiction; cbn [dispatch fst snd].
      - rewrite onPointerMove_inactive by auto. cbn. auto.
      - destruct (elapse_frame dt w) as [[Hh|Hh] _]; rewrite Hh;
          rewrite ?expired_idle; auto.
      - cbn. auto. }
    destruct Hstep as [Hh He]. rewrite He.
    destruct (IH (fst (dispatch w ev))) as [Hh' He'];
      try (rewrite Hh; assumption).
    rewrite Hh', He', Hh. auto.
Qed.

(** C9, as the code has it.  A pointer-down that is consumed as a
    double-click changes nothing of the hook state but the stored handle,
    which it clears: it creates no down-record and removes none.  When no
    down-record is stored at that moment, then until the next pointer-up no
    pointer-move (nor the passing of time) changes the hook state, writes or
    calls anything; that pointer-up asks for no timer and leaves no handle
    stored; and the pointer-down after it is not a double-click, wherever
    and whenever it comes. *)
Theorem no_double_click_after_double_click (w1 : World)
    (during after : list Event) (world world3 : Point)
    (event event3 : PointerEvent) :
  value_of (isDoubleClick w1 world event w1) = true ->
  let w2 := fst (dispatch w1 (PointerDown world event)) in
  let w3 := fst (run w2 during) in
  let up := onPointerUp w3 w3 in
  let w4 := fst (run (world_of up) after) in
  hook w2 = expired (hook w1) /\
  (downPosition (hook w1) = None ->
   Forall quiet during -> Forall quiet after ->
   downPosition (hook w2) = None /\
   hook w3 = hook w2 /\ snd (run w2 during) = [] /\
   leaves_window w3 up /\
   doubleClickTimeout (hook (world_of up)) = None /\
   value_of (isDoubleClick w4 world3 event3 w4) = false).
Proof.
  intros Hdc w2 w3 up w4.
  assert (Hw2 : hook w2 = expired (hook w1)).
  { subst w2. cbn [dispatch fst]. rewrite onPointerDown_eq, Hdc. reflexivity. }
  split; [exact Hw2|]. intros Hd1 Hqd Hqa.
  assert (Hd2 : downPosition (hook w2) = None) by (rewrite Hw2; exact Hd1).
  assert (Ht2 : doubleClickTimeout (hook w2) = None) by (rewrite Hw2; reflexivity).
  destruct (quiet_run_idle during w2 Hqd Hd2 Ht2) as [Hh3 He3]. fold w3 in Hh3.
  assert (Hup : up = (tt,
             mkWorld (mkHook None (downPositionRaw (hook w3)) None
                             (pointerMoved (hook w3)) None)
                     (interactionState w3) (viewportRef w3) (timers w3)
                     (now w3) (nextHandle w3), [])).
  { subst up. rewrite onPointerUp_eq, Hh3, Hd2, Ht2. reflexivity. }
  split; [exact Hd2|]. split; [exact Hh3|]. split; [exact He3|].
  split; [|split].
  - unfold leaves_window. rewrite Hup, Hh3, Ht2. cbn. auto.
  - rewrite Hup. reflexivity.
  - apply isDoubleClick_unarmed. subst w4.
    destruct (quiet_run_idle after (world_of up) Hqa) as [Hh4 _];
      try (rewrite Hup; reflexivity).
    rewrite Hh4, Hup. reflexivity.
Qed.

(** ** Deduplication of drag moves *)

(** C4, as the code has it.  Two consecutive pointer-moves of one gesture
    that resolve to the same normalized rectangle, that rectangle not being
    the single down cell: the second move writes no interaction state, does
    not mark the viewport dirty, and the two moves together write at most
    once.  Two consecutive pointer-moves that resolve to the down cell, with
    the viewport there and the down-record complete: each of them writes the
    collapsed single-cell state. *)
Theorem repeated_drag_is_deduplicated (w : World) (world1 world2 : Point)
    (event1 event2 : PointerEvent) (down : MousePosition Z) :
  downPosition (hook w) = Some down ->
  let first := onPointerMove w world1 event1 w in
  let w1 := world_of first in
  let second := onPointerMove w1 world2 event2 w1 in
  (toCell world1 <> down ->
   normalize down (toCell world2) = normalize down (toCell world1) ->
   effects_of second = [] /\
   interactionState (world_of second) = interactionState w1 /\
   viewportRef (world_of second) = viewportRef w1 /\
   (writes (effects_of first ++ effects_of second) <= 1)%nat) /\
  (forall (viewport : Viewport) (previous : MultiCursorPosition)
          (raw : MousePosition float),
     viewportRef w = Some viewport ->
     previousPosition (hook w) = Some previous ->
     downPositionRaw (hook w) = Some raw ->
     toCell world1 = down ->
     toCell world2 = down ->
     effects_of first = [SetInteractionState (collapsed down)] /\
     effects_of second = [SetInteractionState (collapsed down)] /\
     writes (effects_of first ++ effects_of second) = 2%nat).
Proof.
  intros Hd first w1 second. split.
  2:{ intros viewport previous raw Hv Hp Hr Hc1 Hc2.
      destruct (onPointerMove_in_down_cell w world1 event1 viewport down
                  previous raw Hv Hd Hp Hr Hc1) as [Hv1 [Hd1 [Hp1 [Hr1 _]]]].
      fold first in Hv1, Hd1, Hp1, Hr1. fold w1 in Hv1, Hd1, Hp1, Hr1.
      assert (Hf : effects_of first = [SetInteractionState (collapsed down)]).
      { subst first.
        rewrite (@onPointerMove_eq w w world1 event1 _ _ _ _ Hv Hd Hp Hr).
        apply position_eqb_iff in Hc1. rewrite Hc1. reflexivity. }
      assert (Hs : effects_of second = [SetInteractionState (collapsed down)]).
      { subst second.
        rewrite (@onPointerMove_eq w1 w1 world2 event2 _ _ _ _ Hv1 Hd1 Hp1 Hr1).
        apply position_eqb_iff in Hc2. rewrite Hc2. reflexivity. }
      rewrite Hf, Hs. repeat split. }
  intros Hne Hsame.
  apply normalize_injective in Hsame.
  assert (Hc1 : position_eqb (toCell world1) down = false).
  { destruct (position_eqb (toCell world1) down) eqn:Hc; [|reflexivity].
    apply position_eqb_iff in Hc. contradiction. }
  destruct (viewportRef w) as [viewport|] eqn:Hv.
  2:{ assert (Hf : first = (tt, w, []))
        by (apply onPointerMove_inactive; auto).
      subst second w1. rewrite Hf. cbn [world_of fst snd effects_of].
      rewrite onPointerMove_inactive by auto. cbn. auto. }
  destruct (previousPosition (hook w)) as [previous|] eqn:Hp.
  2:{ assert (Hf : first = (tt, w, []))
        by (apply onPointerMove_inactive; auto).
      subst second w1. rewrite Hf. cbn [world_of fst snd effects_of].
      rewrite onPointerMove_inactive by auto. cbn. auto. }
  destruct (downPositionRaw (hook w)) as [raw|] eqn:Hr.
  2:{ assert (Hf : first = (tt, w, []))
        by (apply onPointerMove_inactive; auto).
      subst second w1. rewrite Hf. cbn [world_of fst snd effects_of].
      rewrite onPointerMove_inactive by auto. cbn. auto. }
  pose proof (@onPointerMove_eq w w world1 event1 _ _ _ _ Hv Hd Hp Hr) as Hf.
  cbv zeta in Hf. fold first in Hf. rewrite Hc1 in Hf.
  set (flag := exceeds w viewport raw world1) in Hf.
  assert (Hw1 : exists viewport1,
            viewportRef w1 = Some viewport1 /\
            downPosition (hook w1) = Some down /\
            previousPosition (hook w1) = Some (normalize down (toCell world1)) /\
            downPositionRaw (hook w1) = Some raw /\
            (writes (effects_of first) <= 1)%nat).
  { subst w1.
    destruct (rectangle_eqb previous (normalize down (toCell world1))) eqn:Hq;
      rewrite Hf; cbn [world_of fst snd effects_of writes].
    - apply rectangle_eqb_iff in Hq. exists viewport.
      unfold flagged_world. destruct flag; cbn; rewrite ?Hv, ?Hd, ?Hp, ?Hr, ?Hq;
        repeat split; auto.
    - exists (mkViewport (scale_x viewport) true).
      unfold flagged_world, dragged_world.
      destruct flag; cbn; rewrite ?Hv, ?Hd, ?Hp, ?Hr; repeat split; auto. }
  destruct Hw1 as [viewport1 [Hv1 [Hd1 [Hp1 [Hr1 Hwr]]]]].
  pose proof (@onPointerMove_eq w1 w1 world2 event2 _ _ _ _ Hv1 Hd1 Hp1 Hr1)
    as Hs.
  cbv zeta in Hs. fold second in Hs. rewrite Hsame, Hc1 in Hs.
  assert (Hq : rectangle_eqb (normalize down (toCell world1))
                             (normalize down (toCell world1)) = true)
    by (apply rectangle_eqb_iff; reflexivity).
  rewrite Hq in Hs. rewrite Hs. cbn [world_of fst snd effects_of].
  rewrite app_nil_r. unfold flagged_world.
  destruct (exceeds w1 viewport1 raw world2); cbn; auto.
Qed.

(** ** Timers are never cancelled *)

(** C2, as the code has it.  [onPointerUp] cancels nothing: every timer that
    is pending before it is still pending after it; when it arms the window
    it adds one timer, due 500 units later, and overwrites the stored handle
    with the new one.  Whenever time passes so that some pending timer is
    due, the stored handle is cleared, whichever timer that was. *)
Theorem onPointerUp_never_cancels (r w : World) (dt : N) (timer : Timer) :
  (In timer (timers w) -> In timer (timers (world_of (onPointerUp r w)))) /\
  ((exists down, downPosition (hook r) = Some down) ->
   pointerMoved (hook r) = false ->
   timers (world_of (onPointerUp r w))
     = timers w ++ [mkTimer (nextHandle w) (now w + DOUBLE_CLICK_TIME)] /\
   doubleClickTimeout (hook (world_of (onPointerUp r w)))
     = Some (nextHandle w)) /\
  (In timer (timers w) -> (due timer <= now w + dt)%N ->
   doubleClickTimeout (hook (elapse dt w)) = None /\
   ~ In timer (timers (elapse dt w))).
Proof.
  split; [|split].
  - rewrite onPointerUp_eq.
    destruct (downPosition (hook r)); [destruct (pointerMoved (hook r))|];
      cbn [world_of fst snd timers]; auto.
    intros Hin. apply in_or_app. auto.
  - intros [down Hd] Hm. rewrite onPointerUp_eq, Hd, Hm. cbn. auto.
  - intros Hin Hdue.
    assert (Hfired : In timer (filter (is_due (now w + dt)) (timers w))).
    { apply filter_In. split; [exact Hin|]. unfold is_due.
      apply N.leb_le. exact Hdue. }
    split.
    + unfold elapse.
      match goal with
      | |- context [fold_left ?f ?l ?a] =>
          destruct (fire_all l a) as [Hh _]
      end.
      cbv zeta in Hh. rewrite Hh.
      destruct (filter (is_due (now w + dt)) (timers w));
        [destruct Hfired | reflexivity].
    + destruct (elapse_frame dt w) as [_ [_ [_ [Ht _]]]]. rewrite Ht.
      rewrite filter_In. intros [_ Habs].
      unfold is_due in Habs. apply N.leb_le in Hdue. rewrite Hdue in Habs.
      discriminate.
Qed.

(** ** Right-clicks *)

(** X13.  A right-click that is not consumed as a double-click, with no
    multi-cell selection shown or with the clicked cell inside the selection
    shown, writes nothing and calls nothing, and the interaction state stays
    as it was. *)
Theorem right_click_swallowed (r w : World) (world : Point)
    (event : PointerEvent) :
  rightClick event = true ->
  value_of (isDoubleClick r world event w) = false ->
  showMultiCursor (interactionState r) = false \/
  contains (multiCursorPosition (interactionState r)) (toCell world) = true ->
  effects_of (onPointerDown r world event w) = [] /\
  interactionState (world_of (onPointerDown r world event w))
    = interactionState w.
Proof.
  intros Hrc Hdc Hsel. rewrite onPointerDown_eq, Hdc.
  destruct (viewportRef r); [|cbn; auto].
  assert (Hs : swallowed r world event = true).
  { unfold swallowed. rewrite Hrc. destruct Hsel as [-> | ->];
      cbn; auto using orb_true_r. }
  rewrite Hs. cbn. auto.
Qed.

(** ** The raw down position *)

(** C8, as the code has it.  A pointer-down that finds the viewport and is
    not consumed as a double-click stores the event's world position as raw
    down position, also when it is a right-click that is swallowed; the
    distance test of the next pointer-down is then taken from that
    position.  A pointer-down that is consumed as a double-click leaves the
    stored raw down position as it was. *)
Theorem onPointerDown_overwrites_raw (w : World) (world world2 : Point)
    (event event2 : PointerEvent) (viewport : Viewport) :
  viewportRef w = Some viewport ->
  let w1 := world_of (onPointerDown w world event w) in
  (value_of (isDoubleClick w world event w) = false ->
   downPositionRaw (hook w1) = Some world /\
   value_of (isDoubleClick w1 world2 event2 w1)
   = (button event2 =? 0)%Z
     && (truthy (doubleClickTimeout (hook w1))
         && negb (pointerMoved (hook w1))
         && PrimFloat.ltb
              (abs (x world - x world2) + abs (y world - y world2))
              (MINIMUM_MOVE_POSITION * scale_x viewport))) /\
  (value_of (isDoubleClick w world event w) = true ->
   downPositionRaw (hook w1) = downPositionRaw (hook w)).
Proof.
  intros Hv w1. split; intros Hdc.
  - assert (Hw1 : downPositionRaw (hook w1) = Some world /\
                  viewportRef w1 = Some viewport).
    { subst w1. rewrite onPointerDown_eq, Hdc, Hv.
      destruct (swallowed w world event);
        cbn [world_of fst snd swallowed_world selected_world hook
             downPositionRaw viewportRef];
        rewrite position_eta; auto. }
    destruct Hw1 as [Hr1 Hv1]. split; [exact Hr1|].
    exact (isDoubleClick_value w1 w1 world2 event2 world viewport Hr1 Hv1).
  - subst w1. rewrite onPointerDown_eq, Hdc. reflexivity.
Qed.

(** * Further properties of the handlers *)

(** ** Guards *)

Lemma isDoubleClick_true_primary (r w : World) (world : Point)
    (event : PointerEvent) :
  value_of (isDoubleClick r world event w) = true -> button event = 0%Z.
Proof.
  unfold isDoubleClick.
  destruct (button event =? 0)%Z eqn:Hb; cbn [negb].
  - intros _. apply Z.eqb_eq. exact Hb.
  - cbn. discriminate.
Qed.

Lemma isDoubleClick_no_viewport (r w : World) (world : Point)
    (event : PointerEvent) :
  viewportRef r = None -> value_of (isDoubleClick r world event w) = false.
Proof.
  intros Hv. unfold isDoubleClick. rewrite Hv.
  destruct (negb (button event =? 0)%Z); [reflexivity|].
  destruct (downPositionRaw (hook r)); reflexivity.
Qed.

(** X1.  While [viewportRef.current] is not there, a pointer-down and a
    pointer-move leave the whole world as it is and write, call and schedule
    nothing, and no pointer-down is a double-click. *)
Theorem unavailable_viewport_is_ignored (r w : World) (world : Point)
    (event : PointerEvent) :
  viewportRef r = None ->
  value_of (isDoubleClick r world event w) = false /\
  onPointerDown r world event w = (tt, w, []) /\
  onPointerMove r world event w = (tt, w, []).
Proof.
  intros Hv. pose proof (isDoubleClick_no_viewport r w world event Hv) as Hdc.
  split; [exact Hdc|]. split.
  - rewrite onPointerDown_eq, Hdc, Hv. reflexivity.
  - apply onPointerMove_inactive. auto.
Qed.

Lemma quiet_run_no_record (evs : list Event) (w : World) :
  Forall quiet evs ->
  downPosition (hook w) = None ->
  snd (run w evs) = [] /\ downPosition (hook (fst (run w evs))) = None.
Proof.
  intros Hq. revert w. induction Hq as [|ev evs Hev _ IH]; intros w Hd.
  - cbn. auto.
  - cbn [run fst snd].
    destruct (quiet_frame w ev Hev) as [Hd' _]. rewrite Hd in Hd'.
    destruct (IH (fst (dispatch w ev)) Hd') as [He Hn].
    rewrite He, Hn, app_nil_r. split; [|reflexivity].
    destruct ev as [world event|world event| |dt|viewport s];
      try contradiction; cbn [dispatch snd]; try reflexivity.
    rewrite onPointerMove_inactive by auto. reflexivity.
Qed.

(** X2.  Once [onPointerUp] has run, from whatever state, pointer-moves are
    ignored: until the next pointer-down nothing is written, called or
    scheduled, no down-record appears, and a further pointer-up does not arm
    the double-click window: it asks for no timer and leaves the host's
    timers and the stored handle as they are. *)
Theorem moves_after_pointer_up_are_ignored (w : World) (evs : list Event) :
  Forall quiet evs ->
  let w1 := fst (run (world_of (onPointerUp w w)) evs) in
  snd (run (world_of (onPointerUp w w)) evs) = [] /\
  downPosition (hook w1) = None /\
  leaves_window w1 (onPointerUp w1 w1).
Proof.
  intros Hq w1.
  assert (Hd : downPosition (hook (world_of (onPointerUp w w))) = None).
  { rewrite onPointerUp_eq.
    destruct (downPosition (hook w)); [destruct (pointerMoved (hook w))|];
      reflexivity. }
  destruct (quiet_run_no_record evs _ Hq Hd) as [He Hn]. fold w1 in Hn.
  split; [exact He|]. split; [exact Hn|].
  apply (proj2 (onPointerUp_window w1 w1)). left. exact Hn.
Qed.

(** X3.  In any run, from any state, the double-click handler is only ever
    called with an event of the primary button, and it is passed the
    interaction state as it was when that event arrived. *)
Theorem handler_called_for_primary_button_only (w : World) (evs : list Event)
    (event : PointerEvent) (s : GridInteractionState) :
  In (DoubleClickCanvas event s) (snd (run w evs)) ->
  button event = 0%Z /\
  exists before after world,
    evs = before ++ PointerDown world event :: after /\
    s = interactionState (fst (run w before)).
Proof.
  revert w. induction evs as [|ev evs IH]; intros w Hin; cbn [run snd] in Hin.
  - destruct Hin.
  - apply in_app_or in Hin. destruct Hin as [Hin|Hin].
    + destruct ev as [world event'|world event'| |dt|viewport s'];
        cbn [dispatch snd] in Hin; try destruct Hin.
      * rewrite onPointerDown_eq in Hin.
        destruct (value_of (isDoubleClick w world event' w)) eqn:Hdc.
        -- cbn [effects_of snd] in Hin. destruct Hin as [Heq|[]].
           injection Heq as He Hs. subst event'.
           split; [exact (isDoubleClick_true_primary _ _ _ _ Hdc)|].
           exists [], evs, world. split; [reflexivity|].
           symmetry. exact Hs.
        -- destruct (viewportRef w); [destruct (swallowed w world event')|];
             cbn [effects_of snd] in Hin; in_log.
      * destruct (viewportRef w) as [viewport|] eqn:Hv;
          [|rewrite onPointerMove_inactive in Hin by auto; destruct Hin].
        destruct (downPosition (hook w)) as [down|] eqn:Hd;
          [|rewrite onPointerMove_inactive in Hin by auto; destruct Hin].
        destruct (previousPosition (hook w)) as [previous|] eqn:Hp;
          [|rewrite onPointerMove_inactive in Hin by auto; destruct Hin].
        destruct (downPositionRaw (hook w)) as [raw|] eqn:Hr;
          [|rewrite onPointerMove_inactive in Hin by auto; destruct Hin].
        rewrite (@onPointerMove_eq w w world event' _ _ _ _ Hv Hd Hp Hr) in Hin.
        destruct (position_eqb (toCell world) down);
          [|destruct (rectangle_eqb previous (normalize down (toCell world)))];
          cbn [effects_of snd] in Hin; in_log.
      * rewrite onPointerUp_eq in Hin.
        destruct (downPosition (hook w)); [destruct (pointerMoved (hook w))|];
          cbn [effects_of snd] in Hin; in_log.
    + destruct (IH _ Hin) as [Hb [before [after [world [Hevs Hs]]]]].
      split; [exact Hb|].
      exists (ev :: before), after, world. split.
      * rewrite Hevs. reflexivity.
      * exact Hs.
Qed.

(** ** What the writes look like *)

(** X4.  When [onPointerDown] writes, it writes once: the cursor on one cell,
    the rectangle collapsed onto that cell, the multi-cursor hidden, and the
    keyboard position, [showInput] and the initial input value as they were;
    the movement flag is lowered. *)
Theorem onPointerDown_selects_one_cell (r w : World) (world : Point)
    (event : PointerEvent) (s : GridInteractionState) :
  In (SetInteractionState s) (effects_of (onPointerDown r world event w)) ->
  effects_of (onPointerDown r world event w) = [SetInteractionState s] /\
  originPosition (multiCursorPosition s) = cursorPosition s /\
  terminalPosition (multiCursorPosition s) = cursorPosition s /\
  showMultiCursor s = false /\
  keyboardMovePosition s = keyboardMovePosition (interactionState r) /\
  showInput s = showInput (interactionState r) /\
  inputInitialValue s = inputInitialValue (interactionState r) /\
  pointerMoved (hook (world_of (onPointerDown r world event w))) = false.
Proof.
  intros Hin. destruct (onPointerDown_write r w world event s Hin)
    as [Hdc [Hv [Hsw [-> Hw]]]].
  rewrite Hw. rewrite onPointerDown_eq, Hdc, Hsw.
  destruct (viewportRef r); [|congruence]. cbn. repeat split.
Qed.

Lemma contains_iff (m : MultiCursorPosition) (c : MousePosition Z) :
  contains m c = true <->
  (x (originPosition m) <= x c <= x (terminalPosition m))%Z /\
  (y (originPosition m) <= y c <= y (terminalPosition m))%Z.
Proof.
  unfold contains. rewrite !andb_true_iff, !Z.geb_le, !Z.leb_le. lia.
Qed.

Lemma contains_normalize (down current : MousePosition Z) :
  contains (normalize down current) down = true /\
  contains (normalize down current) current = true.
Proof. rewrite !contains_iff. unfold normalize. cbn. lia. Qed.

(** X5.  Whatever [onPointerMove] writes, the written rectangle contains both
    the down cell and the cell under the pointer, and the multi-cursor is
    shown exactly when these two cells differ. *)
Theorem onPointerMove_rectangle_spans (r w : World) (world : Point)
    (event : PointerEvent) (s : GridInteractionState) :
  In (SetInteractionState s) (effects_of (onPointerMove r world event w)) ->
  exists down,
    downPosition (hook r) = Some down /\
    contains (multiCursorPosition s) down = true /\
    contains (multiCursorPosition s) (toCell world) = true /\
    (showMultiCursor s = true <-> toCell world <> down).
Proof.
  intros Hin. apply onPointerMove_write in Hin.
  destruct Hin as [down [Hd [[Hc ->]|[Hc ->]]]]; exists down;
    (split; [exact Hd|]).
  - rewrite Hc. cbn [collapsed multiCursorPosition showMultiCursor].
    rewrite contains_iff. cbn.
    split; [lia|]. split; [lia|].
    split; [discriminate | intros Habs; congruence].
  - cbn [dragged multiCursorPosition showMultiCursor].
    destruct (contains_normalize down (toCell world)) as [H1 H2].
    repeat split; auto.
Qed.

(** X6.  [onPointerMove] marks the viewport dirty exactly when it writes a
    shown multi-cell selection; the write that collapses the selection back
    onto the down cell does not mark it. *)
Theorem dirty_marks_drag_writes (r w : World) (world : Point)
    (event : PointerEvent) :
  In MarkDirty (effects_of (onPointerMove r world event w)) <->
  exists s,
    In (SetInteractionState s) (effects_of (onPointerMove r world event w)) /\
    showMultiCursor s = true.
Proof.
  destruct (viewportRef r) as [viewport|] eqn:Hv.
  2:{ rewrite onPointerMove_inactive by auto. cbn.
      split; [intros [] | intros [s [[] _]]]. }
  destruct (downPosition (hook r)) as [down|] eqn:Hd.
  2:{ rewrite onPointerMove_inactive by auto. cbn.
      split; [intros [] | intros [s [[] _]]]. }
  destruct (previousPosition (hook r)) as [previous|] eqn:Hp.
  2:{ rewrite onPointerMove_inactive by auto. cbn.
      split; [intros [] | intros [s [[] _]]]. }
  destruct (downPositionRaw (hook r)) as [raw|] eqn:Hr.
  2:{ rewrite onPointerMove_inactive by auto. cbn.
      split; [intros [] | intros [s [[] _]]]. }
  rewrite (@onPointerMove_eq r w world event _ _ _ _ Hv Hd Hp Hr).
  destruct (position_eqb (toCell world) down);
    [|destruct (rectangle_eqb previous (normalize down (toCell world)))];
    cbn [effects_of snd]; split.
  - intros Hin. in_log.
  - intros [s [Hin Hs]]. in_log. discriminate.
  - intros Hin. in_log.
  - intros [s [Hin _]]. in_log.
  - intros _. exists (dragged down (toCell world)). split; [left|]; reflexivity.
  - intros _. right. left. reflexivity.
Qed.

(** ** Zoom scale *)

(** Doubles that are not below zero ([NaN] included), and doubles that are
    not above zero. *)
Lemma SFabs_not_negative (f : spec_float) : not_negative (SFabs f).
Proof. destruct f; exact I. Qed.

Lemma binary_round_aux_sign (sx : bool) (mx ex : Z) (lx : location) :
  let f := binary_round_aux prec emax sx mx ex lx in
  if sx then not_positive f else not_negative f.
Proof.
  cbv zeta. unfold binary_round_aux.
  destruct (shr_fexp prec emax mx ex lx) as [mrs' e'].
  destruct (shr_fexp prec emax
              (round_nearest_even (shr_m mrs') (loc_of_shr_record mrs')) e'
              loc_Exact) as [mrs'' e''].
  destruct (shr_m mrs''); [destruct sx; exact I | | destruct sx; exact I].
  destruct (e'' <=? emax - prec)%Z; destruct sx; exact I.
Qed.

Lemma SF64add_not_negative (a b : spec_float) :
  not_negative a -> not_negative b -> not_negative (SF64add a b).
Proof.
  unfold SF64add.
  destruct a as [sa|sa| |sa ma ea]; destruct b as [sb|sb| |sb mb eb];
    try destruct sa; try destruct sb; cbn [not_negative];
    try contradiction; intros _ _; try exact I.
  unfold SFadd, binary_normalize, binary_round, cond_Zopp.
  cbn [Z.add].
  match goal with
  | |- context [shl_align ?m ?e ?e'] => destruct (shl_align m e e') as [mz ez]
  end.
  exact (binary_round_aux_sign false (Z.pos mz) ez loc_Exact).
Qed.

Lemma SF64mul_not_positive (a b : spec_float) :
  not_negative a -> a <> S754_zero true -> not_positive b ->
  not_positive (SF64mul a b).
Proof.
  unfold SF64mul.
  destruct a as [sa|sa| |sa ma ea]; destruct b as [sb|sb| |sb mb eb];
    try destruct sa; try destruct sb; cbn [not_negative not_positive];
    try contradiction; intros _ Hz _; try exact I;
    try (exfalso; apply Hz; reflexivity).
  exact (binary_round_aux_sign true (Z.pos (ma * mb)) (ea + eb) loc_Exact).
Qed.

Lemma SFleb_zero_not_positive (f : spec_float) :
  SFleb f (S754_zero false) = true -> not_positive f.
Proof.
  destruct f as [s|s| |s m e]; try destruct s; cbn; try discriminate;
    intros _; exact I.
Qed.

Lemma SFltb_signs (a b : spec_float) :
  not_negative a -> not_positive b -> SFltb a b = false.
Proof.
  destruct a as [sa|sa| |sa ma ea]; destruct b as [sb|sb| |sb mb eb];
    try destruct sa; try destruct sb; cbn [not_negative not_positive];
    try contradiction; intros _ _; reflexivity.
Qed.

(** X7.  At a zoom scale of zero or below no pointer-down is a
    double-click, however close and however soon it comes. *)
Theorem no_double_click_without_scale (r w : World) (world : Point)
    (event : PointerEvent) (viewport : Viewport) :
  viewportRef r = Some viewport ->
  PrimFloat.leb (scale_x viewport) 0 = true ->
  value_of (isDoubleClick r world event w) = false.
Proof.
  intros Hv Hs.
  destruct (downPositionRaw (hook r)) as [raw|] eqn:Hr.
  - rewrite (isDoubleClick_value r w world event raw viewport Hr Hv).
    assert (Hlt : PrimFloat.ltb (manhattan raw world)
                    (MINIMUM_MOVE_POSITION * scale_x viewport) = false).
    { unfold manhattan. rewrite ltb_spec, add_spec, !abs_spec, mul_spec.
      apply SFltb_signs.
      - apply SF64add_not_negative; apply SFabs_not_negative.
      - apply SF64mul_not_positive.
        + vm_compute. exact I.
        + vm_compute. discriminate.
        + apply SFleb_zero_not_positive. rewrite leb_spec in Hs. exact Hs. }
    rewrite Hlt, !andb_false_r. reflexivity.
  - unfold isDoubleClick. rewrite Hr.
    destruct (negb (button event =? 0)%Z); reflexivity.
Qed.

(** ** The life of the double-click window *)

Lemma filter_none (A : Type) (f : A -> bool) (l : list A) :
  (forall a, In a l -> f a = false) -> filter f l = [].
Proof.
  induction l as [|a l IH]; intros Hf; cbn; [reflexivity|].
  rewrite (Hf a) by (left; reflexivity). apply IH.
  intros b Hb. apply Hf. right. exact Hb.
Qed.

Lemma filter_all (A : Type) (f : A -> bool) (l : list A) :
  (forall a, In a l -> f a = true) -> filter f l = l.
Proof.
  induction l as [|a l IH]; intros Hf; cbn; [reflexivity|].
  rewrite (Hf a) by (left; reflexivity). f_equal. apply IH.
  intros b Hb. apply Hf. right. exact Hb.
Qed.

Lemma elapse_due_clears (dt : N) (w : World) (timer : Timer) :
  In timer (timers w) -> (due timer <= now w + dt)%N ->
  doubleClickTimeout (hook (elapse dt w)) = None.
Proof.
  intros Hin Hdue.
  assert (Hfired : In timer (filter (is_due (now w + dt)) (timers w))).
  { apply filter_In. split; [exact Hin|]. apply N.leb_le. exact Hdue. }
  unfold elapse.
  match goal with
  | |- context [fold_left ?f ?l ?a] => destruct (fire_all l a) as [Hh _]
  end.
  cbv zeta in Hh. rewrite Hh.
  destruct (filter (is_due (now w + dt)) (timers w));
    [destruct Hfired | reflexivity].
Qed.

Lemma elapse_none_due (dt : N) (w : World) :
  (forall timer, In timer (timers w) -> (now w + dt < due timer)%N) ->
  hook (elapse dt w) = hook w /\ timers (elapse dt w) = timers w.
Proof.
  intros Hnone.
  assert (Hf : forall timer, In timer (timers w) ->
                             is_due (now w + dt) timer = false).
  { intros timer Hin. apply N.leb_gt. exact (Hnone timer Hin). }
  split.
  - unfold elapse.
    match goal with
    | |- context [fold_left ?f ?l ?a] => destruct (fire_all l a) as [Hh _]
    end.
    cbv zeta in Hh. rewrite Hh, (filter_none _ _ _ Hf). reflexivity.
  - destruct (elapse_frame dt w) as [_ [_ [_ [Ht _]]]]. rewrite Ht.
    apply filter_all. intros timer Hin. rewrite (Hf timer Hin). reflexivity.
Qed.

Lemma closes_in_time_step (w : World) (ev : Event) :
  closes_in_time w -> closes_in_time (fst (dispatch w ev)).
Proof.
  intros Hinv. destruct ev as [world event|world event| |dt|viewport s];
    cbn [dispatch fst].
  - rewrite onPointerDown_eq.
    destruct (value_of (isDoubleClick w world event w)).
    + intros Habs. exfalso. apply Habs. reflexivity.
    + destruct (viewportRef w); [destruct (swallowed w world event)|];
        exact Hinv.
  - destruct (onPointerMove_frame w world event)
      as [_ [_ [Ht [_ [_ [Htm [Hn _]]]]]]].
    unfold closes_in_time. rewrite Ht, Htm, Hn. exact Hinv.
  - rewrite onPointerUp_eq.
    destruct (downPosition (hook w)); [destruct (pointerMoved (hook w))|];
      try exact Hinv.
    intros _. exists (mkTimer (nextHandle w) (now w + DOUBLE_CLICK_TIME)).
    split; [apply in_or_app; right; left; reflexivity|].
    cbn. apply N.le_refl.
  - intros Hsome.
    destruct (elapse_frame dt w) as [Hh [_ [_ [Ht [Hn _]]]]].
    assert (Hbefore : doubleClickTimeout (hook w) <> None).
    { destruct Hh as [Hh|Hh]; rewrite Hh in Hsome; [exact Hsome|].
      exfalso. apply Hsome. reflexivity. }
    destruct (Hinv Hbefore) as [timer [Hin Hdue]].
    destruct (N.le_gt_cases (due timer) (now w + dt)) as [Hle|Hgt].
    + exfalso. apply Hsome. exact (elapse_due_clears dt w timer Hin Hle).
    + exists timer. rewrite Ht, Hn. split; [|lia].
      apply filter_In. split; [exact Hin|].
      apply negb_true_iff. apply N.leb_gt. exact Hgt.
  - exact Hinv.
Qed.

Lemma closes_in_time_run (evs : list Event) (w : World) :
  closes_in_time w -> closes_in_time (fst (run w evs)).
Proof.
  revert w. induction evs as [|ev evs IH]; intros w Hinv; cbn [run fst].
  - exact Hinv.
  - apply IH. apply closes_in_time_step. exact Hinv.
Qed.

(** X8.  Start with no handle stored (or with one that is backed by a timer
    due within 500 units) and let any events happen.  Whenever 500 units or
    more then pass without an event, the window is closed: no handle is
    stored, and the next pointer-down is not a double-click, wherever it
    is. *)
Theorem window_closes_after_double_click_time (w0 : World)
    (evs : list Event) (dt : N) (world : Point) (event : PointerEvent) :
  closes_in_time w0 ->
  (DOUBLE_CLICK_TIME <= dt)%N ->
  let w := elapse dt (fst (run w0 evs)) in
  doubleClickTimeout (hook w) = None /\
  value_of (isDoubleClick w world event w) = false.
Proof.
  intros Hinv Hdt w.
  assert (Hnone : doubleClickTimeout (hook w) = None).
  { subst w. pose proof (closes_in_time_run evs w0 Hinv) as Hrun.
    set (w1 := fst (run w0 evs)) in *.
    destruct (doubleClickTimeout (hook w1)) as [h|] eqn:Hh.
    - destruct Hrun as [timer [Hin Hdue]]; [rewrite Hh; discriminate|].
      apply (elapse_due_clears dt w1 timer Hin). lia.
    - destruct (elapse_frame dt w1) as [[Hk|Hk] _]; rewrite Hk;
        [exact Hh | reflexivity]. }
  split; [exact Hnone|]. apply isDoubleClick_unarmed. exact Hnone.
Qed.

(** X9.  A pointer-down that selects a cell, the pointer-up right after it,
    and then, less than 500 units later and before any older timer is due,
    a primary pointer-down for which the source's test of the distance to
    the first one, [|dx| + |dy| < 5 * scale.x], holds: the second
    pointer-down is a double-click.  It calls the handler
    with the state the first one wrote, and writes nothing itself. *)
Theorem click_then_nearby_down_is_double_click (w0 : World)
    (viewport : Viewport) (world world2 : Point) (event event2 : PointerEvent)
    (s0 : GridInteractionState) (dt : N) :
  viewportRef w0 = Some viewport ->
  nextHandle w0 <> 0%Z ->
  (forall timer, In timer (timers w0) -> (now w0 + dt < due timer)%N) ->
  In (SetInteractionState s0) (effects_of (onPointerDown w0 world event w0)) ->
  (dt < DOUBLE_CLICK_TIME)%N ->
  button event2 = 0%Z ->
  PrimFloat.ltb (abs (x world - x world2) + abs (y world - y world2))
                (MINIMUM_MOVE_POSITION * scale_x viewport) = true ->
  let w := fst (run w0 [PointerDown world event; PointerUp; Elapse dt]) in
  value_of (isDoubleClick w world2 event2 w) = true /\
  effects_of (onPointerDown w world2 event2 w) = [DoubleClickCanvas event2 s0] /\
  interactionState w = s0.
Proof.
  intros Hv Hh Hold Hdown Hdt Hb Hnear w.
  destruct (onPointerDown_write w0 w0 world event s0 Hdown)
    as [_ [_ [_ [Hs0 Hw1]]]].
  set (w2 := world_of (onPointerUp (selected_world w0 w0 world)
                                   (selected_world w0 w0 world))).
  assert (Hw : w = elapse dt w2).
  { subst w w2. cbn [run dispatch fst]. rewrite Hw1. reflexivity. }
  assert (Hw2 : w2 = mkWorld
             (mkHook None (Some (mkPosition (x world) (y world))) None false
                     (Some (nextHandle w0)))
             (selected (interactionState w0) (toCell world)) (viewportRef w0)
             (timers w0 ++ [mkTimer (nextHandle w0) (now w0 + DOUBLE_CLICK_TIME)])
             (now w0) (nextHandle w0 + 1)%Z).
  { subst w2. rewrite onPointerUp_eq. reflexivity. }
  assert (Hquiet : forall timer, In timer (timers w2) ->
                                 (now w2 + dt < due timer)%N).
  { rewrite Hw2. cbn [timers now]. intros timer Hin.
    apply in_app_or in Hin. destruct Hin as [Hin|[<-|[]]].
    - exact (Hold timer Hin).
    - cbn. lia. }
  destruct (elapse_none_due dt w2 Hquiet) as [Hhook _].
  destruct (elapse_frame dt w2) as [_ [Hi [Hvw _]]].
  rewrite <- Hw in Hhook, Hi, Hvw.
  assert (Hdc : value_of (isDoubleClick w world2 event2 w) = true).
  { rewrite (isDoubleClick_value w w world2 event2
               (mkPosition (x world) (y world)) viewport).
    - rewrite Hhook, Hw2. cbn [hook doubleClickTimeout pointerMoved truthy negb].
      apply Z.eqb_eq in Hb. rewrite Hb.
      apply Z.eqb_neq in Hh. rewrite Hh.
      unfold manhattan. cbn [x y]. rewrite Hnear. reflexivity.
    - rewrite Hhook, Hw2. reflexivity.
    - rewrite Hvw, Hw2. exact Hv. }
  assert (Hstate : interactionState w = s0).
  { rewrite Hi, Hw2, Hs0. reflexivity. }
  split; [exact Hdc|]. split; [|exact Hstate].
  rewrite onPointerDown_eq, Hdc, Hstate. reflexivity.
Qed.

Lemma unmoved_step (scale : float) (raw : MousePosition float) (w : World)
    (ev : Event) :
  unmoved scale raw w -> within_threshold scale raw ev ->
  unmoved scale raw (fst (dispatch w ev)).
Proof.
  intros [[viewport [Hv Hs]] [Hd [Hp [Hr Hm]]]] Hev.
  destruct ev as [world event|world event| |dt|viewport' s'];
    try contradiction; cbn [dispatch fst].
  - destruct (downPosition (hook w)) as [down|] eqn:Hd'; [|congruence].
    destruct (previousPosition (hook w)) as [previous|] eqn:Hp'; [|congruence].
    rewrite (@onPointerMove_eq w w world event _ _ _ _ Hv Hd' Hp' Hr).
    assert (Hx : exceeds w viewport raw world = false).
    { unfold exceeds. rewrite Hs.
      cbn [within_threshold] in Hev. rewrite Hev. apply andb_false_r. }
    rewrite Hx. unfold flagged_world, unmoved.
    destruct (position_eqb (toCell world) down);
      [|destruct (rectangle_eqb previous (normalize down (toCell world)))];
      cbn [world_of fst snd collapsed_world dragged_world hook viewportRef
           downPosition previousPosition downPositionRaw pointerMoved];
      rewrite ?Hv, ?Hd', ?Hp', ?Hr, ?Hm;
      (split; [eexists; split; [reflexivity|assumption]|]);
      repeat split; try discriminate.
  - destruct (elapse_frame dt w) as [Hh [_ [Hvw _]]].
    unfold unmoved. rewrite Hvw.
    destruct Hh as [Hh|Hh]; rewrite Hh; cbn [expired downPosition
      previousPosition downPositionRaw pointerMoved];
      (split; [exists viewport; auto|]); auto.
Qed.

(** X10.  In a gesture that begins with a selecting pointer-down, as long as
    the source's test [|dx| + |dy| > 5 * scale.x] against the down position
    fails for every pointer-move, the movement flag stays down and the
    pointer-up arms the double-click window, whatever cells the moves pass
    over and however long the gesture takes. *)
Theorem small_moves_keep_the_click (w0 : World) (world0 : Point)
    (event0 : PointerEvent) (s0 : GridInteractionState) (viewport : Viewport)
    (during : list Event) :
  viewportRef w0 = Some viewport ->
  In (SetInteractionState s0) (effects_of (onPointerDown w0 world0 event0 w0)) ->
  Forall (within_threshold (scale_x viewport)
                           (mkPosition (x world0) (y world0))) during ->
  let w := fst (run (world_of (onPointerDown w0 world0 event0 w0)) during) in
  pointerMoved (hook w) = false /\ arms w (onPointerUp w w).
Proof.
  intros Hv Hdown Hall w.
  destruct (onPointerDown_write w0 w0 world0 event0 s0 Hdown)
    as [_ [_ [_ [_ Hw1]]]].
  assert (Hstart : unmoved (scale_x viewport) (mkPosition (x world0) (y world0))
                           (world_of (onPointerDown w0 world0 event0 w0))).
  { rewrite Hw1. unfold unmoved, selected_world. cbn.
    split; [exists viewport; auto|]. repeat split; discriminate. }
  assert (Hend : unmoved (scale_x viewport) (mkPosition (x world0) (y world0)) w).
  { subst w. revert Hstart.
    generalize (world_of (onPointerDown w0 world0 event0 w0)).
    induction Hall as [|ev evs Hev _ IH]; intros w1 Hw; cbn [run fst].
    - exact Hw.
    - apply IH. apply unmoved_step; assumption. }
  destruct Hend as [_ [Hd [_ [_ Hm]]]].
  split; [exact Hm|].
  apply (proj1 (onPointerUp_window w w)). split; [|exact Hm].
  destruct (downPosition (hook w)) as [down|]; [exists down; reflexivity|].
  congruence.
Qed.

(** ** The previous rectangle *)

(** X11.  The previous rectangle is not updated by the write that collapses
    the selection onto the down cell.  So after a drag to another cell and a
    move back into the down cell, a move that returns to that other cell
    writes nothing: the interaction state keeps the collapsed single-cell
    selection although the pointer is over another cell. *)
Theorem drag_resumed_after_down_cell_is_not_written (w : World)
    (viewport : Viewport) (down : MousePosition Z)
    (previous : MultiCursorPosition) (raw : MousePosition float)
    (world1 world2 world3 : Point) (event1 event2 event3 : PointerEvent) :
  viewportRef w = Some viewport ->
  downPosition (hook w) = Some down ->
  previousPosition (hook w) = Some previous ->
  downPositionRaw (hook w) = Some raw ->
  toCell world1 <> down ->
  toCell world2 = down ->
  toCell world3 = toCell world1 ->
  let w2 := fst (run w [PointerMove world1 event1; PointerMove world2 event2]) in
  let last := onPointerMove w2 world3 event3 w2 in
  interactionState w2 = collapsed down /\
  effects_of last = [] /\
  interactionState (world_of last) = collapsed down.
Proof.
  intros Hv Hd Hp Hr Hne Hback Hsame w2 last.
  destruct (onPointerMove_after_drag w world1 event1 viewport down previous raw
              Hv Hd Hp Hr Hne) as [[viewport1 Hv1] [Hd1 [Hp1 Hr1]]].
  set (w1 := world_of (onPointerMove w world1 event1 w)) in *.
  destruct (onPointerMove_in_down_cell w1 world2 event2 viewport1 down _ raw
              Hv1 Hd1 Hp1 Hr1 Hback) as [Hv2 [Hd2 [Hp2 [Hr2 Hi2]]]].
  assert (Hw2 : w2 = world_of (onPointerMove w1 world2 event2 w1))
    by reflexivity.
  rewrite <- Hw2 in Hv2, Hd2, Hp2, Hr2, Hi2.
  split; [exact Hi2|].
  subst last.
  rewrite (@onPointerMove_eq w2 w2 world3 event3 _ _ _ _ Hv2 Hd2 Hp2 Hr2).
  rewrite Hsame.
  destruct (position_eqb (toCell world1) down) eqn:Hc;
    [apply position_eqb_iff in Hc; contradiction|].
  assert (Hq : rectangle_eqb (normalize down (toCell world1))
                             (normalize down (toCell world1)) = true)
    by (apply rectangle_eqb_iff; reflexivity).
  rewrite Hq. unfold flagged_world.
  destruct (exceeds w2 viewport1 raw world3); cbn; auto.
Qed.

(** ** The down-record *)

Lemma coherent_step (w : World) (ev : Event) :
  coherent (hook w) -> coherent (hook (fst (dispatch w ev))).
Proof.
  intros [Hdp Hdr]. destruct ev as [world event|world event| |dt|viewport s];
    cbn [dispatch fst].
  - rewrite onPointerDown_eq.
    destruct (value_of (isDoubleClick w world event w));
      [split; assumption|].
    destruct (viewportRef w); [destruct (swallowed w world event)|];
      cbn [world_of fst snd swallowed_world selected_world hook];
      unfold coherent; cbn [downPosition previousPosition downPositionRaw];
      try (split; [assumption|intros _; discriminate]);
      try (split; assumption).
    split; [split; discriminate | intros _; discriminate].
  - destruct (viewportRef w) as [viewport|] eqn:Hv;
      [|rewrite onPointerMove_inactive by auto; unfold coherent;
        cbn [world_of fst snd]; rewrite ?Hd, ?Hp, ?Hr; split; assumption].
    destruct (downPosition (hook w)) as [down|] eqn:Hd;
      [|rewrite onPointerMove_inactive by auto; unfold coherent;
        cbn [world_of fst snd]; rewrite ?Hd, ?Hp, ?Hr; split; assumption].
    destruct (previousPosition (hook w)) as [previous|] eqn:Hp;
      [|rewrite onPointerMove_inactive by auto; unfold coherent;
        cbn [world_of fst snd]; rewrite ?Hd, ?Hp, ?Hr; split; assumption].
    destruct (downPositionRaw (hook w)) as [raw|] eqn:Hr;
      [|rewrite onPointerMove_inactive by auto; unfold coherent;
        cbn [world_of fst snd]; rewrite ?Hd, ?Hp, ?Hr; split; assumption].
    rewrite (@onPointerMove_eq w w world event _ _ _ _ Hv Hd Hp Hr).
    unfold flagged_world, coherent.
    destruct (exceeds w viewport raw world);
      destruct (position_eqb (toCell world) down);
      try destruct (rectangle_eqb previous (normalize down (toCell world)));
      cbn [world_of fst snd collapsed_world dragged_world hook downPosition
           previousPosition downPositionRaw];
      rewrite ?Hd, ?Hp, ?Hr;
      (split; [split; discriminate | intros _; discriminate]).
  - rewrite onPointerUp_eq. unfold coherent.
    destruct (downPosition (hook w)); [destruct (pointerMoved (hook w))|];
      cbn; (split; [split; reflexivity | intros Habs; congruence]).
  - destruct (elapse_frame dt w) as [[Hh|Hh] _]; rewrite Hh;
      split; assumption.
  - split; assumption.
Qed.

(** X12.  The down-record is kept whole by every event: if the down cell and
    the previous rectangle are both set or both unset, and a down cell comes
    with a raw down position, then the same holds after any run.  So of the
    three tests at the head of [onPointerMove] the one on the down cell
    decides. *)
Theorem down_record_stays_coherent (w : World) (evs : list Event)
    (world : Point) (event : PointerEvent) (down : MousePosition Z) :
  coherent (hook w) ->
  let w' := fst (run w evs) in
  coherent (hook w') /\
  (viewportRef w' <> None ->
   downPosition (hook w') = Some down ->
   (exists s, In (SetInteractionState s)
                 (effects_of (onPointerMove w' world event w'))) \/
   previousPosition (hook w') = Some (normalize down (toCell world))).
Proof.
  intros Hc w'.
  assert (Hrun : coherent (hook w')).
  { subst w'. revert w Hc.
    induction evs as [|ev evs IH]; intros w Hc; cbn [run fst].
    - exact Hc.
    - apply IH. apply coherent_step. exact Hc. }
  split; [exact Hrun|]. intros Hv Hd.
  destruct Hrun as [Hdp Hdr].
  destruct (viewportRef w') as [viewport|] eqn:Hv'; [|congruence].
  destruct (previousPosition (hook w')) as [previous|] eqn:Hp'.
  2:{ exfalso. destruct Hdp as [_ Hdp]. specialize (Hdp eq_refl). congruence. }
  destruct (downPositionRaw (hook w')) as [raw|] eqn:Hr'.
  2:{ exfalso. apply Hdr; [congruence | reflexivity]. }
  rewrite (@onPointerMove_eq w' w' world event _ _ _ _ Hv' Hd Hp' Hr').
  destruct (position_eqb (toCell world) down).
  - left. exists (collapsed down). left. reflexivity.
  - destruct (rectangle_eqb previous (normalize down (toCell world))) eqn:Hq.
    + apply rectangle_eqb_iff in Hq. right. rewrite Hq. reflexivity.
    + left. exists (dragged down (toCell world)). left. reflexivity.
Qed.

End UsePointerEvents.

(** * The scenarios of the specification, run

    Cells are 100 wide and 20 high, the viewport is at zoom scale 1, and the
    double-click handler leaves the interaction state alone. *)

Local Abbreviation scenario evs := (run 100 20 keep mounted evs).
Local Abbreviation pointer_down := (onPointerDown 100 20 keep).
Local Abbreviation pointer_move := (onPointerMove 100 20).
Local Abbreviation to_cell := (toCell 100 20).

(** Scenario B: a click at (10,10), then a second pointer-down at the same
    place 400 units later, is a double-click. *)
Lemma isDoubleClick_iff_witness :
  let w := fst (scenario [PointerDown (at_world 10 10) primary; PointerUp;
                          Elapse 400]) in
  value_of (isDoubleClick keep w (at_world 10 10) primary w) = true.
Proof.
  cbv zeta.
  apply (proj2 (proj1 (isDoubleClick_iff keep
           (fst (scenario [PointerDown (at_world 10 10) primary; PointerUp;
                           Elapse 400]))
           (fst (scenario [PointerDown (at_world 10 10) primary; PointerUp;
                           Elapse 400]))
           (at_world 10 10) primary))).
  split; [reflexivity|].
  exists (at_world 10 10), (mkViewport 1 false), 1%Z.
  repeat split; try reflexivity. discriminate.
Defined.

(** Scenario A: down at (150,25), move to (250,45). *)
Lemma toCell_floor_division_witness :
  let w1 := fst (scenario [PointerDown (at_world 150 25) primary]) in
  (to_cell (at_world 150 25) = cell 1 1 /\
   effects_of (pointer_down mounted (at_world 150 25) primary mounted)
     = [SetInteractionState (selected resting (to_cell (at_world 150 25)))]) /\
  (to_cell (at_world 250 45) = cell 2 2 /\
   effects_of (pointer_move w1 (at_world 250 45) primary w1)
     = [SetInteractionState (dragged (cell 1 1) (to_cell (at_world 250 45)));
        MarkDirty]) /\
  cursorPosition (selected resting (cell 1 1)) = to_cell (at_world 150 25) /\
  keyboardMovePosition (dragged (cell 1 1) (cell 2 2))
    = to_cell (at_world 250 45).
Proof.
  intros w1. split; [|split; [|split]].
  - split; [vm_compute; reflexivity|].
    apply (proj1 (toCell_floor_division 100 20 keep mounted mounted
                    (at_world 150 25) primary resting)).
    + vm_compute. reflexivity.
    + discriminate.
    + vm_compute. reflexivity.
  - split; [vm_compute; reflexivity|].
    assert (Hv : viewportRef w1 = Some (mkViewport 1 false))
      by (vm_compute; reflexivity).
    assert (Hd : downPosition (hook w1) = Some (cell 1 1))
      by (vm_compute; reflexivity).
    assert (Hp : previousPosition (hook w1)
                 = Some (mkMultiCursor (cell 1 1) (cell 1 1)))
      by (vm_compute; reflexivity).
    assert (Hr : downPositionRaw (hook w1) = Some (at_world 150 25))
      by (vm_compute; reflexivity).
    destruct (proj1 (proj2 (toCell_floor_division 100 20 keep w1 w1
                              (at_world 250 45) primary resting))
                (mkViewport 1 false) (cell 1 1)
                (mkMultiCursor (cell 1 1) (cell 1 1)) (at_world 150 25)
                Hv Hd Hp Hr)
      as [_ [Hdrag _]].
    apply Hdrag; vm_compute; discriminate.
  - apply (proj1 (proj2 (proj2 (toCell_floor_division 100 20 keep mounted
                                  mounted (at_world 150 25) primary
                                  (selected resting (cell 1 1)))))).
    vm_compute. left. reflexivity.
  - destruct (proj2 (proj2 (proj2 (toCell_floor_division 100 20 keep w1 w1
                                     (at_world 250 45) primary
                                     (dragged (cell 1 1) (cell 2 2))))))
      as [down [_ Hs]].
    + vm_compute. left. reflexivity.
    + cbn [dragged showMultiCursor] in Hs. destruct Hs as [_ [Hk _]]. exact Hk.
Defined.

Lemma selection_rectangle_normalized_witness :
  In (SetInteractionState (dragged (cell 1 1) (cell 2 2)))
     (snd (scenario [PointerDown (at_world 150 25) primary;
                     PointerMove (at_world 250 45) primary])) /\
  normalized (multiCursorPosition (dragged (cell 1 1) (cell 2 2))).
Proof.
  assert (Hin : In (SetInteractionState (dragged (cell 1 1) (cell 2 2)))
                   (snd (scenario [PointerDown (at_world 150 25) primary;
                                   PointerMove (at_world 250 45) primary]))).
  { vm_compute. right. left. reflexivity. }
  split; [exact Hin|].
  exact (selection_rectangle_normalized 100 20 keep mounted _ _ Hin).
Defined.

Lemma move_keeps_cursor_on_down_cell_witness :
  cursorPosition (dragged (cell 1 1) (cell 2 2)) = to_cell (at_world 150 25) /\
  showInput (dragged (cell 1 1) (cell 2 2)) = false /\
  inputInitialValue (dragged (cell 1 1) (cell 2 2)) = EmptyString.
Proof.
  apply (move_keeps_cursor_on_down_cell 100 20 keep mounted (at_world 150 25)
           primary (selected resting (cell 1 1))
           [PointerMove (at_world 250 45) primary]
           (dragged (cell 1 1) (cell 2 2))).
  - vm_compute. left. reflexivity.
  - repeat constructor.
  - vm_compute. left. reflexivity.
Defined.

(** Scenario D: down at (10,10), move to (500,10), then up. *)
Lemma onPointerUp_arms_iff_witness :
  let w1 := world_of (pointer_down mounted (at_world 10 10) primary mounted) in
  arms w1 (onPointerUp w1 w1) /\
  let w2 := fst (run 100 20 keep w1
                     ([] ++ PointerMove (at_world 500 10) primary :: [])) in
  pointerMoved (hook w2) = true /\
  leaves_window w2 (onPointerUp w2 w2) /\
  ~ arms w2 (onPointerUp w2 w2).
Proof.
  cbv zeta. split.
  - apply (proj1 (proj1 (onPointerUp_arms_iff 100 20 keep) _ _)).
    split; [exists (cell 0 0)|]; vm_compute; reflexivity.
  - apply (proj2 (onPointerUp_arms_iff 100 20 keep) mounted (at_world 10 10)
             primary (selected resting (cell 0 0)) [] []
             (at_world 500 10) primary (mkViewport 1 false)).
    + vm_compute. left. reflexivity.
    + constructor.
    + constructor.
    + vm_compute. reflexivity.
    + vm_compute. reflexivity.
Defined.

(** Scenario B, continued by a third click. *)
Lemma no_double_click_after_double_click_witness :
  let w1 := fst (scenario [PointerDown (at_world 10 10) primary; PointerUp;
                           Elapse 400]) in
  let w2 := fst (dispatch 100 20 keep w1
                          (PointerDown (at_world 10 10) primary)) in
  let w3 := fst (run 100 20 keep w2 [PointerMove (at_world 12 10) primary]) in
  let up := onPointerUp w3 w3 in
  let w4 := fst (run 100 20 keep (world_of up) [Elapse 10]) in
  hook w2 = expired (hook w1) /\
  downPosition (hook w2) = None /\
  hook w3 = hook w2 /\
  snd (run 100 20 keep w2 [PointerMove (at_world 12 10) primary]) = [] /\
  leaves_window w3 up /\
  doubleClickTimeout (hook (world_of up)) = None /\
  value_of (isDoubleClick keep w4 (at_world 10 10) primary w4) = false.
Proof.
  intros w1.
  assert (Hdouble : value_of (isDoubleClick keep w1 (at_world 10 10) primary
                                            w1) = true)
    by (vm_compute; reflexivity).
  assert (Hidle : downPosition (hook w1) = None)
    by (vm_compute; reflexivity).
  assert (Hduring : Forall quiet [PointerMove (at_world 12 10) primary])
    by (repeat constructor).
  assert (Hafter : Forall quiet [Elapse 10]) by (repeat constructor).
  destruct (no_double_click_after_double_click 100 20 keep w1
              [PointerMove (at_world 12 10) primary] [Elapse 10]
              (at_world 10 10) (at_world 10 10) primary primary Hdouble)
    as [Hhook Hrest].
  cbv zeta. split; [exact Hhook|].
  exact (Hrest Hidle Hduring Hafter).
Defined.

(** Scenario A, with the move repeated within the same cell; and two moves
    within the down cell. *)
Lemma repeated_drag_is_deduplicated_witness :
  let w := fst (scenario [PointerDown (at_world 150 25) primary]) in
  (let first := pointer_move w (at_world 250 45) primary w in
   let w1 := world_of first in
   let second := pointer_move w1 (at_world 260 50) primary w1 in
   effects_of second = [] /\
   interactionState (world_of second) = interactionState w1 /\
   viewportRef (world_of second) = viewportRef w1 /\
   (writes (effects_of first ++ effects_of second) <= 1)%nat) /\
  (let first := pointer_move w (at_world 160 30) primary w in
   let w1 := world_of first in
   let second := pointer_move w1 (at_world 170 35) primary w1 in
   effects_of first = [SetInteractionState (collapsed (cell 1 1))] /\
   effects_of second = [SetInteractionState (collapsed (cell 1 1))] /\
   writes (effects_of first ++ effects_of second) = 2%nat).
Proof.
  intros w.
  assert (Hd : downPosition (hook w) = Some (cell 1 1))
    by (vm_compute; reflexivity).
  split.
  - apply (proj1 (repeated_drag_is_deduplicated 100 20 w (at_world 250 45)
                    (at_world 260 50) primary primary (cell 1 1) Hd)).
    + vm_compute. discriminate.
    + vm_compute. reflexivity.
  - apply (proj2 (repeated_drag_is_deduplicated 100 20 w (at_world 160 30)
                    (at_world 170 35) primary primary (cell 1 1) Hd)
             (mkViewport 1 false) (mkMultiCursor (cell 1 1) (cell 1 1))
             (at_world 150 25)); vm_compute; reflexivity.
Defined.

(** Two clicks, 400 units apart and far from each other: the timer of the
    first one is kept by the second pointer-up, and clears the handle of the
    second one when it fires. *)
Lemma onPointerUp_never_cancels_witness :
  let w := fst (scenario [PointerDown (at_world 10 10) primary; PointerUp;
                          Elapse 400; PointerDown (at_world 300 300) primary]) in
  let w' := world_of (onPointerUp w w) in
  In (mkTimer 1 500) (timers w') /\
  timers w' = [mkTimer 1 500; mkTimer 2 900] /\
  doubleClickTimeout (hook w') = Some 2%Z /\
  doubleClickTimeout (hook (elapse 100 w')) = None /\
  ~ In (mkTimer 1 500) (timers (elapse 100 w')).
Proof.
  cbv zeta.
  set (w := fst (scenario [PointerDown (at_world 10 10) primary; PointerUp;
                           Elapse 400; PointerDown (at_world 300 300) primary])).
  destruct (onPointerUp_never_cancels w w 100 (mkTimer 1 500))
    as [Hkeep [Harm _]].
  destruct (onPointerUp_never_cancels w (world_of (onPointerUp w w)) 100
              (mkTimer 1 500)) as [_ [_ Hfire]].
  assert (Hin : In (mkTimer 1 500) (timers (world_of (onPointerUp w w)))).
  { apply Hkeep. left. reflexivity. }
  destruct Harm as [Ht Hh];
    [exists (cell 3 15); vm_compute; reflexivity | vm_compute; reflexivity|].
  destruct (Hfire Hin) as [Hnone Hgone].
  { vm_compute. discriminate. }
  repeat split; assumption.
Defined.

(** A right-click on the cell (1,1), with no selection shown and with the
    selection from (0,0) to (1,1) shown. *)
Lemma right_click_swallowed_witness :
  (effects_of (pointer_down mounted (at_world 150 25) secondary mounted) = [] /\
   interactionState
     (world_of (pointer_down mounted (at_world 150 25) secondary mounted))
     = resting) /\
  (effects_of (pointer_down mounted_selecting (at_world 150 25) secondary
                            mounted_selecting) = [] /\
   interactionState
     (world_of (pointer_down mounted_selecting (at_world 150 25) secondary
                             mounted_selecting))
     = selecting).
Proof.
  split.
  - apply (right_click_swallowed 100 20 keep mounted mounted
             (at_world 150 25) secondary).
    + reflexivity.
    + reflexivity.
    + left. reflexivity.
  - apply (right_click_swallowed 100 20 keep mounted_selecting
             mounted_selecting (at_world 150 25) secondary).
    + reflexivity.
    + reflexivity.
    + right. reflexivity.
Defined.

(** A click at (10,10), then a swallowed right-click at (300,300): the next
    distance is taken from (300,300).  And Scenario B, where the second
    pointer-down is consumed. *)
Lemma onPointerDown_overwrites_raw_witness :
  (let w := fst (scenario [PointerDown (at_world 10 10) primary; PointerUp]) in
   let w1 := world_of (pointer_down w (at_world 300 300) secondary w) in
   downPositionRaw (hook w1) = Some (at_world 300 300) /\
   value_of (isDoubleClick keep w1 (at_world 10 10) primary w1)
   = (button primary =? 0)%Z
     && (truthy (doubleClickTimeout (hook w1))
         && negb (pointerMoved (hook w1))
         && PrimFloat.ltb
              (abs (x (at_world 300 300) - x (at_world 10 10))
               + abs (y (at_world 300 300) - y (at_world 10 10)))
              (MINIMUM_MOVE_POSITION * scale_x (mkViewport 1 false)))) /\
  (let w := fst (scenario [PointerDown (at_world 10 10) primary; PointerUp]) in
   let w1 := world_of (pointer_down w (at_world 11 10) primary w) in
   downPositionRaw (hook w1) = downPositionRaw (hook w)).
Proof.
  split.
  - intros w.
    assert (Hv : viewportRef w = Some (mkViewport 1 false))
      by (vm_compute; reflexivity).
    apply (proj1 (onPointerDown_overwrites_raw 100 20 keep w
                    (at_world 300 300) (at_world 10 10) secondary primary
                    (mkViewport 1 false) Hv)).
    vm_compute. reflexivity.
  - intros w.
    assert (Hv : viewportRef w = Some (mkViewport 1 false))
      by (vm_compute; reflexivity).
    apply (proj2 (onPointerDown_overwrites_raw 100 20 keep w
                    (at_world 11 10) (at_world 10 10) primary primary
                    (mkViewport 1 false) Hv)).
    vm_compute. reflexivity.
Defined.

(** * Where the code departs from the specification *)

(** C2 fails: after two clicks 400 units apart two expiry timers are pending;
    100 units later the first one fires and clears the handle of the
    second window, so that a pointer-down at the place of the second click,
    100 units after it, is not a double-click, while the second timer is
    still pending. *)
Lemma two_timers_pending :
  let w := fst (scenario [PointerDown (at_world 10 10) primary; PointerUp;
                          Elapse 400;
                          PointerDown (at_world 300 300) primary; PointerUp]) in
  timers w = [mkTimer 1 500; mkTimer 2 900] /\
  ~ (List.length (timers w) <= 1)%nat /\
  doubleClickTimeout (hook w) = Some 2%Z /\
  timers (elapse 100 w) = [mkTimer 2 900] /\
  doubleClickTimeout (hook (elapse 100 w)) = None /\
  value_of (isDoubleClick keep (elapse 100 w) (at_world 300 300) primary
                          (elapse 100 w)) = false.
Proof.
  cbv zeta. repeat split; try reflexivity.
  vm_compute. intros Hle. apply Nat.leb_le in Hle. discriminate.
Qed.

(** C4 fails: two pointer-moves within the down cell resolve to the same
    rectangle, the single down cell, and each of them writes the interaction
    state. *)
Lemma moves_in_down_cell_write_twice :
  let w := fst (scenario [PointerDown (at_world 10 10) primary]) in
  let first := pointer_move w (at_world 11 10) primary w in
  let w1 := world_of first in
  let second := pointer_move w1 (at_world 12 10) primary w1 in
  normalize (cell 0 0) (to_cell (at_world 11 10))
    = normalize (cell 0 0) (to_cell (at_world 12 10)) /\
  effects_of second = [SetInteractionState (collapsed (cell 0 0))] /\
  effects_of second <> [] /\
  writes (effects_of first ++ effects_of second) = 2%nat.
Proof.
  cbv zeta. repeat split; try reflexivity. vm_compute. discriminate.
Qed.

(** C5, at the input where the code departs from it: with the selection
    from (0,0) to (1,1) shown, a right-click on the cell (5,4) is not
    consumed as a double-click and yet is not ignored: it moves the cursor
    there and hides the selection. *)
Lemma right_click_outside_selection_selects :
  let res := pointer_down mounted_selecting (at_world 550 90) secondary
                          mounted_selecting in
  rightClick secondary = true /\
  value_of (isDoubleClick keep mounted_selecting (at_world 550 90) secondary
                          mounted_selecting) = false /\
  effects_of res = [SetInteractionState (selected selecting (cell 5 4))] /\
  interactionState (world_of res) = selected selecting (cell 5 4) /\
  interactionState (world_of res) <> interactionState mounted_selecting.
Proof.
  cbv zeta. repeat split; try reflexivity. vm_compute. discriminate.
Qed.

(** C8 fails: a pointer-down that is consumed as a double-click finds the
    viewport and leaves the stored raw down position as it was. *)
Lemma consumed_down_keeps_raw :
  let w := fst (scenario [PointerDown (at_world 10 10) primary; PointerUp;
                          Elapse 400]) in
  let w1 := world_of (pointer_down w (at_world 11 10) primary w) in
  viewportRef w = Some (mkViewport 1 false) /\
  downPositionRaw (hook w1) = Some (at_world 10 10) /\
  downPositionRaw (hook w1) <> Some (at_world 11 10).
Proof.
  cbv zeta. repeat split; try reflexivity. vm_compute. discriminate.
Qed.

(** C9 fails: a click, then a selecting pointer-down at (300,300) with no
    pointer-up, then a pointer-down at (301,300).  The last one is consumed
    as a double-click while the down-record of the one before is stored; the
    next pointer-move then writes, the next pointer-up arms the window, and
    the pointer-down after it is a double-click again. *)
Lemma stale_record_after_double_click :
  let w1 := fst (scenario [PointerDown (at_world 10 10) primary; PointerUp;
                           PointerDown (at_world 300 300) primary]) in
  let w2 := fst (dispatch 100 20 keep w1
                          (PointerDown (at_world 301 300) primary)) in
  let move := pointer_move w2 (at_world 302 300) primary w2 in
  let w3 := world_of move in
  let up := onPointerUp w3 w3 in
  let w4 := world_of up in
  value_of (isDoubleClick keep w1 (at_world 301 300) primary w1) = true /\
  downPosition (hook w2) = Some (cell 3 15) /\
  effects_of move = [SetInteractionState (collapsed (cell 3 15))] /\
  effects_of up = [SetTimeout 2 DOUBLE_CLICK_TIME] /\
  doubleClickTimeout (hook w4) = Some 2%Z /\
  value_of (isDoubleClick keep w4 (at_world 301 300) primary w4) = true.
Proof. vm_compute. repeat split. Qed.

(** * Rounding at the threshold

    The distance and the threshold are computed in doubles, as the source
    computes them.  From x = 0.1 to x = 5.1 the distance comes out as 5, which
    is not below 5 * 1; from x = 0.7 to x = 5.7 it comes out as 5, which is
    not above 5 * 1; from (13.08, 5.06) to (16.221, 15.419) it comes out just
    above 5 * 2.7. *)
Lemma rounding_at_the_threshold :
  PrimFloat.ltb (manhattan (at_world (1 / 10) 0) (at_world (51 / 10) 0))
                (MINIMUM_MOVE_POSITION * 1) = false /\
  PrimFloat.ltb (MINIMUM_MOVE_POSITION * 1)
                (manhattan (at_world (7 / 10) 0) (at_world (57 / 10) 0))
    = false /\
  PrimFloat.ltb (MINIMUM_MOVE_POSITION * (27 / 10))
                (manhattan (at_world (1308 / 100) (506 / 100))
                           (at_world (16221 / 1000) (15419 / 1000)))
    = true /\
  Math_floor (1152921504606846976 / 100) = 11529215046068470%Z.
Proof. vm_compute. repeat split. Qed.

(** * The further properties, run *)

Lemma unavailable_viewport_is_ignored_witness :
  value_of (isDoubleClick keep without_viewport (at_world 10 10) primary
                          without_viewport) = false /\
  pointer_down without_viewport (at_world 10 10) primary without_viewport
    = (tt, without_viewport, []) /\
  pointer_move without_viewport (at_world 10 10) primary without_viewport
    = (tt, without_viewport, []).
Proof.
  exact (unavailable_viewport_is_ignored 100 20 keep without_viewport
           without_viewport (at_world 10 10) primary eq_refl).
Defined.

Lemma moves_after_pointer_up_are_ignored_witness :
  let w := fst (scenario [PointerDown (at_world 150 25) primary]) in
  let w1 := fst (run 100 20 keep (world_of (onPointerUp w w))
                     [PointerMove (at_world 250 45) primary; Elapse 10]) in
  snd (run 100 20 keep (world_of (onPointerUp w w))
           [PointerMove (at_world 250 45) primary; Elapse 10]) = [] /\
  downPosition (hook w1) = None /\
  leaves_window w1 (onPointerUp w1 w1).
Proof.
  intros w.
  assert (Hq : Forall quiet [PointerMove (at_world 250 45) primary; Elapse 10])
    by (repeat constructor).
  exact (moves_after_pointer_up_are_ignored 100 20 keep w _ Hq).
Defined.

Lemma handler_called_for_primary_button_only_witness :
  button primary = 0%Z /\
  exists before after world,
    [PointerDown (at_world 10 10) primary; PointerUp; Elapse 400;
     PointerDown (at_world 11 10) primary]
    = before ++ PointerDown world primary :: after /\
    selected resting (cell 0 0)
    = interactionState (fst (run 100 20 keep mounted before)).
Proof.
  apply (handler_called_for_primary_button_only 100 20 keep mounted
           [PointerDown (at_world 10 10) primary; PointerUp; Elapse 400;
            PointerDown (at_world 11 10) primary]
           primary (selected resting (cell 0 0))).
  vm_compute. right. right. left. reflexivity.
Defined.

Lemma onPointerDown_selects_one_cell_witness :
  let s := selected resting (cell 1 1) in
  let res := pointer_down mounted (at_world 150 25) primary mounted in
  effects_of res = [SetInteractionState s] /\
  originPosition (multiCursorPosition s) = cursorPosition s /\
  terminalPosition (multiCursorPosition s) = cursorPosition s /\
  showMultiCursor s = false /\
  keyboardMovePosition s = keyboardMovePosition (interactionState mounted) /\
  showInput s = showInput (interactionState mounted) /\
  inputInitialValue s = inputInitialValue (interactionState mounted) /\
  pointerMoved (hook (world_of res)) = false.
Proof.
  cbv zeta.
  apply (onPointerDown_selects_one_cell 100 20 keep mounted mounted
           (at_world 150 25) primary (selected resting (cell 1 1))).
  vm_compute. left. reflexivity.
Defined.

Lemma onPointerMove_rectangle_spans_witness :
  let w := fst (scenario [PointerDown (at_world 150 25) primary]) in
  let s := dragged (cell 1 1) (cell 2 2) in
  exists down,
    downPosition (hook w) = Some down /\
    contains (multiCursorPosition s) down = true /\
    contains (multiCursorPosition s) (to_cell (at_world 250 45)) = true /\
    (showMultiCursor s = true <-> to_cell (at_world 250 45) <> down).
Proof.
  cbv zeta.
  apply (onPointerMove_rectangle_spans 100 20
           (fst (scenario [PointerDown (at_world 150 25) primary]))
           (fst (scenario [PointerDown (at_world 150 25) primary]))
           (at_world 250 45) primary (dragged (cell 1 1) (cell 2 2))).
  vm_compute. left. reflexivity.
Defined.

Lemma dirty_marks_drag_writes_witness :
  let w := fst (scenario [PointerDown (at_world 150 25) primary]) in
  In MarkDirty (effects_of (pointer_move w (at_world 250 45) primary w)).
Proof.
  cbv zeta.
  apply (proj2 (dirty_marks_drag_writes 100 20
                  (fst (scenario [PointerDown (at_world 150 25) primary]))
                  (fst (scenario [PointerDown (at_world 150 25) primary]))
                  (at_world 250 45) primary)).
  exists (dragged (cell 1 1) (cell 2 2)).
  split; [vm_compute; left; reflexivity | reflexivity].
Defined.

(** A click, then the viewport is zoomed out to scale 0. *)
Lemma no_double_click_without_scale_witness :
  let w := fst (scenario [PointerDown (at_world 10 10) primary; PointerUp;
                          Outside (Some (mkViewport 0 false)) resting]) in
  value_of (isDoubleClick keep w (at_world 10 10) primary w) = false.
Proof.
  intros w.
  assert (Hv : viewportRef w = Some (mkViewport 0 false))
    by (vm_compute; reflexivity).
  assert (Hs : PrimFloat.leb (scale_x (mkViewport 0 false)) 0 = true)
    by reflexivity.
  exact (no_double_click_without_scale keep w w (at_world 10 10) primary
           (mkViewport 0 false) Hv Hs).
Defined.

(** Scenario C: the second pointer-down comes 600 units after the click. *)
Lemma window_closes_after_double_click_time_witness :
  let w := elapse 600 (fst (scenario [PointerDown (at_world 10 10) primary;
                                      PointerUp])) in
  doubleClickTimeout (hook w) = None /\
  value_of (isDoubleClick keep w (at_world 10 10) primary w) = false.
Proof.
  assert (Hc : closes_in_time mounted).
  { intros Habs. exfalso. apply Habs. reflexivity. }
  assert (Hdt : (DOUBLE_CLICK_TIME <= 600)%N) by (vm_compute; discriminate).
  exact (window_closes_after_double_click_time 100 20 keep mounted
           [PointerDown (at_world 10 10) primary; PointerUp] 600
           (at_world 10 10) primary Hc Hdt).
Defined.

(** Scenario B, with the second pointer-down three units off. *)
Lemma click_then_nearby_down_is_double_click_witness :
  let w := fst (scenario [PointerDown (at_world 10 10) primary; PointerUp;
                          Elapse 400]) in
  value_of (isDoubleClick keep w (at_world 12 11) primary w) = true /\
  effects_of (pointer_down w (at_world 12 11) primary w)
    = [DoubleClickCanvas primary (selected resting (cell 0 0))] /\
  interactionState w = selected resting (cell 0 0).
Proof.
  assert (Hv : viewportRef mounted = Some (mkViewport 1 false))
    by reflexivity.
  assert (Hh : nextHandle mounted <> 0%Z) by discriminate.
  assert (Hold : forall timer, In timer (timers mounted) ->
                               (now mounted + 400 < due timer)%N)
    by (intros timer []).
  assert (Hdown : In (SetInteractionState (selected resting (cell 0 0)))
                     (effects_of (pointer_down mounted (at_world 10 10)
                                               primary mounted)))
    by (vm_compute; left; reflexivity).
  assert (Hdt : (400 < DOUBLE_CLICK_TIME)%N) by reflexivity.
  assert (Hb : button primary = 0%Z) by reflexivity.
  assert (Hnear : PrimFloat.ltb
                    (abs (x (at_world 10 10) - x (at_world 12 11))
                     + abs (y (at_world 10 10) - y (at_world 12 11)))
                    (MINIMUM_MOVE_POSITION * scale_x (mkViewport 1 false))
                  = true)
    by (vm_compute; reflexivity).
  exact (click_then_nearby_down_is_double_click 100 20 keep mounted
           (mkViewport 1 false) (at_world 10 10) (at_world 12 11)
           primary primary (selected resting (cell 0 0)) 400
           Hv Hh Hold Hdown Hdt Hb Hnear).
Defined.

Lemma small_moves_keep_the_click_witness :
  let w := fst (run 100 20 keep
                    (world_of (pointer_down mounted (at_world 10 10) primary
                                            mounted))
                    [PointerMove (at_world 12 11) primary; Elapse 50;
                     PointerMove (at_world 11 10) primary]) in
  pointerMoved (hook w) = false /\ arms w (onPointerUp w w).
Proof.
  assert (Hv : viewportRef mounted = Some (mkViewport 1 false))
    by reflexivity.
  assert (Hdown : In (SetInteractionState (selected resting (cell 0 0)))
                     (effects_of (pointer_down mounted (at_world 10 10)
                                               primary mounted)))
    by (vm_compute; left; reflexivity).
  assert (Hall : Forall (within_threshold (scale_x (mkViewport 1 false))
                           (mkPosition (x (at_world 10 10))
                                       (y (at_world 10 10))))
                        [PointerMove (at_world 12 11) primary; Elapse 50;
                         PointerMove (at_world 11 10) primary]).
  { repeat constructor; vm_compute; reflexivity. }
  exact (small_moves_keep_the_click 100 20 keep mounted (at_world 10 10)
           primary (selected resting (cell 0 0)) (mkViewport 1 false) _
           Hv Hdown Hall).
Defined.

(** Down in the cell (1,1), drag to (2,2), back into (1,1), again to (2,2). *)
Lemma drag_resumed_after_down_cell_is_not_written_witness :
  let w := fst (scenario [PointerDown (at_world 150 25) primary]) in
  let w2 := fst (run 100 20 keep w [PointerMove (at_world 250 45) primary;
                                    PointerMove (at_world 160 30) primary]) in
  let last := pointer_move w2 (at_world 260 50) primary w2 in
  interactionState w2 = collapsed (cell 1 1) /\
  effects_of last = [] /\
  interactionState (world_of last) = collapsed (cell 1 1).
Proof.
  intros w.
  assert (Hv : viewportRef w = Some (mkViewport 1 false))
    by (vm_compute; reflexivity).
  assert (Hd : downPosition (hook w) = Some (cell 1 1))
    by (vm_compute; reflexivity).
  assert (Hp : previousPosition (hook w)
               = Some (mkMultiCursor (cell 1 1) (cell 1 1)))
    by (vm_compute; reflexivity).
  assert (Hr : downPositionRaw (hook w) = Some (at_world 150 25))
    by (vm_compute; reflexivity).
  assert (Hne : to_cell (at_world 250 45) <> cell 1 1)
    by (vm_compute; discriminate).
  assert (Hback : to_cell (at_world 160 30) = cell 1 1)
    by (vm_compute; reflexivity).
  assert (Hsame : to_cell (at_world 260 50) = to_cell (at_world 250 45))
    by (vm_compute; reflexivity).
  exact (drag_resumed_after_down_cell_is_not_written 100 20 keep w
           (mkViewport 1 false) (cell 1 1)
           (mkMultiCursor (cell 1 1) (cell 1 1)) (at_world 150 25)
           (at_world 250 45) (at_world 160 30) (at_world 260 50)
           primary primary primary Hv Hd Hp Hr Hne Hback Hsame).
Defined.

Lemma down_record_stays_coherent_witness :
  let w' := fst (scenario [PointerDown (at_world 150 25) primary;
                           PointerMove (at_world 250 45) primary]) in
  coherent (hook w') /\
  ((exists s, In (SetInteractionState s)
                 (effects_of (pointer_move w' (at_world 260 50) primary w'))) \/
   previousPosition (hook w')
     = Some (normalize (cell 1 1) (to_cell (at_world 260 50)))).
Proof.
  assert (Hc : coherent (hook mounted)).
  { split; [split; reflexivity|]. intros Habs. exfalso. apply Habs.
    reflexivity. }
  destruct (down_record_stays_coherent 100 20 keep mounted
              [PointerDown (at_world 150 25) primary;
               PointerMove (at_world 250 45) primary]
              (at_world 260 50) primary (cell 1 1) Hc) as [Hcoh Hmove].
  split; [exact Hcoh|].
  apply Hmove; vm_compute; [discriminate | reflexivity].
Defined.
